(** * DevConnector: the post and profile request handlers

    A shallow embedding of [routes/api/posts.js] and [routes/api/profile.js].
    Every route handler becomes a function from the document store (and the
    request) to a response and the store after the request.  The body of a
    handler's [try] block runs in a small exception monad; its [catch] block
    is the [match] that closes each handler.

    The authentication middleware is outside the model: a handler receives
    the identifier it leaves in [req.user.id]. *)

From stdpp Require Import base strings list gmap sorting.
From Stdlib Require Import ZArith Ascii.

Local Open Scope string_scope.
Local Open Scope list_scope.
Local Open Scope Z_scope.

(** ** JavaScript values and arrays *)

Module Js.

(** The scalar values a parsed JSON body can hold, and [Undefined] for a key
    the body does not have.  Numbers are kept as integers: the handlers only
    test them for their type and for truthiness. *)
Inductive value : Type :=
  | Undefined
  | Null
  | Bool (b : bool)
  | Num (n : Z)
  | Str (s : string).

#[global] Instance value_eq_dec : EqDecision value.
Proof. solve_decision. Defined.

(** [typeof v] *)
Definition typeof (v : value) : string :=
  match v with
  | Undefined => "undefined"
  | Null => "object"
  | Bool _ => "boolean"
  | Num _ => "number"
  | Str _ => "string"
  end.

(** The condition of [if (v)]. *)
Definition truthy (v : value) : bool :=
  match v with
  | Undefined | Null => false
  | Bool b => b
  | Num n => negb (n =? 0)
  | Str s => negb (String.eqb s EmptyString)
  end.

End Js.

Module Arr.

(** [l.findIndex(f)]: the first index whose element satisfies [f], or -1. *)
Fixpoint findIndex {A : Type} (f : A -> bool) (l : list A) : Z :=
  match l with
  | [] => -1
  | x :: l' =>
      if f x then 0
      else let i := findIndex f l' in if i <? 0 then -1 else i + 1
  end.

(** [l.indexOf(x)] on an array of strings. *)
Definition indexOf (x : string) (l : list string) : Z :=
  findIndex (String.eqb x) l.

(** [l[i]]: [undefined] when the index is out of range. *)
Definition get {A : Type} (l : list A) (i : Z) : option A :=
  if i <? 0 then None else l !! Z.to_nat i.

(** [l.splice(start, 1)]: a negative [start] counts from the end, a [start]
    past the end removes nothing. *)
Definition splice1 {A : Type} (start : Z) (l : list A) : list A :=
  let len := Z.of_nat (length l) in
  let s := if start <? 0 then Z.max (len + start) 0 else Z.min start len in
  delete (Z.to_nat s) l.

(** [l.unshift(x)] *)
Definition unshift {A : Type} (x : A) (l : list A) : list A := x :: l.

End Arr.

(** ** Exceptions *)

(** What a [try] block of the handlers can throw: the store's cast error,
    which carries a [kind], and the [TypeError] of a property read on
    [null]. *)
Inductive error : Type :=
  | CastError (kind : string)
  | TypeError.

(** [err.kind == k]; a [TypeError] has no [kind]. *)
Definition kind_is (e : error) (k : string) : bool :=
  match e with
  | CastError k' => String.eqb k' k
  | TypeError => false
  end.

Inductive throwing (A : Type) : Type :=
  | Throw (e : error)
  | Return (a : A).

Arguments Throw {A} e.
Arguments Return {A} a.

#[global] Instance throwing_ret : MRet throwing := @Return.

#[global] Instance throwing_bind : MBind throwing :=
  fun A B f m => match m with Throw e => Throw e | Return a => f a end.

(** [o.field] when [o] may be [null]. *)
Definition deref {A : Type} (o : option A) : throwing A :=
  match o with
  | None => Throw TypeError
  | Some a => Return a
  end.

(** ** express-validator *)

Module Validator.

(** [check(field).not().isEmpty()] fails when the field, turned into a
    string, has length 0: a missing or [null] field and the empty string. *)
Definition isEmpty (v : Js.value) : bool :=
  match v with
  | Js.Undefined | Js.Null => true
  | Js.Str s => String.eqb s EmptyString
  | Js.Bool _ | Js.Num _ => false
  end.

End Validator.

(** ** Documents *)

Module User.
Record t : Type := { name : string; avatar : string }.
End User.

Module Like.
Record t : Type := { user : string }.
End Like.

Module Comment.
Record t : Type :=
  { id : string; text : Js.value; name : string; avatar : string;
    user : string }.
End Comment.

Module Post.
(** Modelled from the spec: [models/Post.js] is not among the sources.  A
    post has its text, the author's name and avatar, the owning user's id, the
    flag [ispublic], its creation time, its likes and its comments. *)
Record t : Type :=
  { text : Js.value; name : string; avatar : string; user : string;
    ispublic : bool; date : Z; likes : list Like.t;
    comments : list Comment.t }.

(** Modelled from the spec: the defaults of [models/Post.js].  [new Post(..)]
    leaves [ispublic] at [true], stamps the creation time and starts with no
    likes and no comments. *)
Definition new (text : Js.value) (name avatar user : string) (now : Z) : t :=
  {| text := text; name := name; avatar := avatar; user := user;
     ispublic := true; date := now; likes := []; comments := [] |}.

Definition set_ispublic (b : bool) (p : t) : t :=
  {| text := text p; name := name p; avatar := avatar p; user := user p;
     ispublic := b; date := date p; likes := likes p;
     comments := comments p |}.

Definition set_likes (l : list Like.t) (p : t) : t :=
  {| text := text p; name := name p; avatar := avatar p; user := user p;
     ispublic := ispublic p; date := date p; likes := l;
     comments := comments p |}.

Definition set_comments (l : list Comment.t) (p : t) : t :=
  {| text := text p; name := name p; avatar := avatar p; user := user p;
     ispublic := ispublic p; date := date p; likes := likes p;
     comments := l |}.
End Post.

Module Social.
(** The object [profileFields.social]: each link is there or not. *)
Record t : Type :=
  { youtube : option Js.value; twitter : option Js.value;
    facebook : option Js.value; linkedin : option Js.value;
    instagram : option Js.value; devpost : option Js.value }.
End Social.

Module Experience.
Record t : Type :=
  { id : string; title : Js.value; company : Js.value; location : Js.value;
    from : Js.value; to : Js.value; current : Js.value;
    description : Js.value }.
End Experience.

Module Education.
Record t : Type :=
  { id : string; school : Js.value; degree : Js.value;
    fieldofstudy : Js.value; location : Js.value; from : Js.value;
    to : Js.value; current : Js.value; description : Js.value }.
End Education.

Module Profile.
(** Modelled from the spec: [models/Profile.js] is not among the sources.  A
    field the document does not have is [None]; a field holds the value the
    handler assigned to it. *)
Record t : Type :=
  { user : string;
    company : option Js.value; website : option Js.value;
    location : option Js.value; bio : option Js.value;
    status : option Js.value; githubusername : option Js.value;
    skills : option (list string);
    social : Social.t;
    experience : list Experience.t;
    education : list Education.t }.

Definition set_experience (l : list Experience.t) (p : t) : t :=
  {| user := user p; company := company p; website := website p;
     location := location p; bio := bio p; status := status p;
     githubusername := githubusername p; skills := skills p;
     social := social p; experience := l; education := education p |}.

Definition set_education (l : list Education.t) (p : t) : t :=
  {| user := user p; company := company p; website := website p;
     location := location p; bio := bio p; status := status p;
     githubusername := githubusername p; skills := skills p;
     social := social p; experience := experience p; education := l |}.
End Profile.

(** ** The document store *)

Module Store.
(** The three collections.  Users and posts are keyed by their [_id]; the
    profiles are keyed by the user they belong to, the only key the handlers
    look them up by. *)
Record t : Type :=
  { users : gmap string User.t;
    profiles : gmap string Profile.t;
    posts : gmap string Post.t }.

Definition set_posts (m : gmap string Post.t) (st : t) : t :=
  {| users := users st; profiles := profiles st; posts := m |}.

Definition set_profiles (m : gmap string Profile.t) (st : t) : t :=
  {| users := users st; profiles := m; posts := posts st |}.

(** [post.save()] for the post stored under [id]. *)
Definition save_post (id : string) (p : Post.t) (st : t) : t :=
  set_posts (<[id := p]> (posts st)) st.

(** [post.remove()] *)
Definition remove_post (id : string) (st : t) : t :=
  set_posts (delete id (posts st)) st.

(** [profile.save()] for the profile of user [uid]. *)
Definition save_profile (uid : string) (p : Profile.t) (st : t) : t :=
  set_profiles (<[uid := p]> (profiles st)) st.

Definition empty : t := {| users := ∅; profiles := ∅; posts := ∅ |}.
End Store.

(** ** Responses *)

Inductive payload : Type :=
  | Errors (msgs : list string)        (* [{ errors: [{ msg }, ..] }] *)
  | Msg (msg : string)                 (* [{ msg }] *)
  | Text (s : string)                  (* [res.send(s)] *)
  | PostJson (p : Post.t)
  | LikesJson (l : list Like.t)
  | CommentsJson (l : list Comment.t)
  | ProfileJson (p : Profile.t).

Record response : Type := { status : Z; body : payload }.

(** [res.status(code).json(b)]; [res.json(b)] is [json 200 b]. *)
Definition json (code : Z) (b : payload) : response :=
  {| status := code; body := b |}.

(** [res.status(code).send(s)] *)
Definition send (code : Z) (s : string) : response :=
  {| status := code; body := Text s |}.

(** The end of every [catch] block. *)
Definition server_error : response := send 500 "Server Error".

Definition ERR_NOTFOUND : string := "Post not found or is private".

(** ** The post routes *)

Module PostReq.
(** The keys of [req.body] that [POST api/posts] reads. *)
Record t : Type := { text : Js.value; ispublic : Js.value }.
End PostReq.

Section Posts.

(** Which strings the store accepts as an [_id]. *)
Variable valid_id : string -> bool.

(** [Model.findById(id)]: a string that is no id makes the store throw a
    cast error of kind [ObjectId]; an id that matches no document gives
    [null]. *)
Definition findById {D : Type} (coll : gmap string D) (id : string)
  : throwing (option D) :=
  if valid_id id then Return (coll !! id) else Throw (CastError "ObjectId").

(** [POST api/posts].  [newId] is the [_id] the store gives the new post and
    [now] the time of the request. *)
Definition createPost (st : Store.t) (uid : string) (req : PostReq.t)
    (newId : string) (now : Z) : response * Store.t :=
  if Validator.isEmpty (PostReq.text req) then
    (json 400 (Errors ["Post text is required"]), st)
  else
    match
      user ← findById (Store.users st) uid;
      u ← deref user;
      let newPost :=
        Post.new (PostReq.text req) (User.name u) (User.avatar u) uid now in
      let newPost :=
        if String.eqb (Js.typeof (PostReq.ispublic req)) "boolean"
           && negb (Js.truthy (PostReq.ispublic req))
        then Post.set_ispublic false newPost else newPost in
      mret (json 200 (PostJson newPost), Store.save_post newId newPost st)
    with
    | Return r => r
    | Throw _ => (server_error, st)
    end.

(** [GET api/posts/:id] *)
Definition getPost (st : Store.t) (id : string) : response :=
  match
    post ← findById (Store.posts st) id;
    p ← deref post;
    if negb (Post.ispublic p) then mret (json 404 (Errors [ERR_NOTFOUND]))
    else mret (json 200 (PostJson p))
  with
  | Return r => r
  | Throw err =>
      if kind_is err "ObjectId" then json 404 (Errors [ERR_NOTFOUND])
      else server_error
  end.

(** [DELETE api/posts/:id] *)
Definition deletePost (st : Store.t) (id uid : string) : response * Store.t :=
  match
    post ← findById (Store.posts st) id;
    match post with
    | None => mret (json 404 (Errors ["Post not found"]), st)
    | Some p =>
        if negb (String.eqb (Post.user p) uid) then
          mret (json 401 (Errors ["User unauthorized to delete post"]), st)
        else mret (json 200 (Msg "Post removed"), Store.remove_post id st)
    end
  with
  | Return r => r
  | Throw err =>
      if kind_is err "ObjectId" then (json 404 (Errors ["Post not found"]), st)
      else (server_error, st)
  end.

(** [like => like.user.toString() == req.user.id] *)
Definition liked_by (uid : string) (like : Like.t) : bool :=
  String.eqb (Like.user like) uid.

(** [PUT api/posts/like/:id] *)
Definition likePost (st : Store.t) (id uid : string) : response * Store.t :=
  match
    post ← findById (Store.posts st) id;
    p ← deref post;
    if negb (Post.ispublic p) then
      mret (json 404 (Errors [ERR_NOTFOUND]), st)
    else if 0 <? Z.of_nat (length (List.filter (liked_by uid) (Post.likes p)))
    then mret (json 400 (Msg "Post already liked"), st)
    else
      let p' :=
        Post.set_likes (Arr.unshift {| Like.user := uid |} (Post.likes p)) p
      in mret (json 200 (LikesJson (Post.likes p')), Store.save_post id p' st)
  with
  | Return r => r
  | Throw err =>
      if kind_is err "ObjectId" then (json 404 (Errors [ERR_NOTFOUND]), st)
      else (server_error, st)
  end.

(** [PUT api/posts/unlike/:id] *)
Definition unlikePost (st : Store.t) (id uid : string) : response * Store.t :=
  match
    post ← findById (Store.posts st) id;
    p ← deref post;
    if negb (Post.ispublic p) then
      mret (json 404 (Errors [ERR_NOTFOUND]), st)
    else if Z.of_nat (length (List.filter (liked_by uid) (Post.likes p))) =? 0
    then mret (json 400 (Msg "Post was never liked"), st)
    else
      let removeIndex := Arr.indexOf uid (map Like.user (Post.likes p)) in
      if 0 <=? removeIndex then
        let p' := Post.set_likes (Arr.splice1 removeIndex (Post.likes p)) p in
        mret (json 200 (LikesJson (Post.likes p')), Store.save_post id p' st)
      else mret (json 200 (LikesJson (Post.likes p)), st)
  with
  | Return r => r
  | Throw err =>
      if kind_is err "ObjectId" then (json 404 (Errors [ERR_NOTFOUND]), st)
      else (server_error, st)
  end.

(** [DELETE api/posts/comment/:id/:comment_id] *)
Definition deleteComment (st : Store.t) (id comment_id uid : string)
  : response * Store.t :=
  match
    post ← findById (Store.posts st) id;
    p ← deref post;
    let removeIndex :=
      Arr.findIndex (fun comment => String.eqb (Comment.id comment) comment_id)
        (Post.comments p) in
    match Arr.get (Post.comments p) removeIndex with
    | None => mret (json 404 (Msg "Comment does not exist"), st)
    | Some comment =>
        if negb (String.eqb (Comment.user comment) uid) then
          mret (json 401 (Msg "User not authorized"), st)
        else if 0 <=? removeIndex then
          let p' :=
            Post.set_comments (Arr.splice1 removeIndex (Post.comments p)) p in
          mret (json 200 (Msg "Comment deleted"), Store.save_post id p' st)
        else mret (json 200 (Msg "Comment deleted"), st)
    end
  with
  | Return r => r
  | Throw err =>
      if kind_is err "ObjectId" then (json 404 (Errors [ERR_NOTFOUND]), st)
      else (server_error, st)
  end.

End Posts.

(** ** The profile routes *)

Module Str.

(** [s.split(sep)] for a separator of one character: the pieces between the
    separators, the empty ones too. *)
Fixpoint split (sep : Ascii.ascii) (s : string) : list string :=
  match s with
  | EmptyString => [EmptyString]
  | String c s' =>
      if Ascii.eqb c sep then EmptyString :: split sep s'
      else match split sep s' with
           | [] => [String c EmptyString]
           | w :: ws => String c w :: ws
           end
  end.

(** A string is kept as the bytes of its UTF-8 encoding, and a character
    that takes several bytes is handled as those bytes together.  A comma
    is one byte and is no byte of another character. *)
Definition bytes (l : list nat) : string :=
  String.string_of_list_ascii (map Ascii.ascii_of_nat l).

(** The white space and line terminator characters [trim] strips: U+0009 to
    U+000D, U+0020, U+00A0, U+1680, U+2000 to U+200A, U+2028, U+2029,
    U+202F, U+205F, U+3000 and U+FEFF.  None takes more than three bytes,
    and none starts or ends another. *)
Definition white_space : list string :=
  map bytes
    [[9]; [10]; [11]; [12]; [13]; [32]; [194; 160]; [225; 154; 128];
     [226; 128; 128]; [226; 128; 129]; [226; 128; 130]; [226; 128; 131];
     [226; 128; 132]; [226; 128; 133]; [226; 128; 134]; [226; 128; 135];
     [226; 128; 136]; [226; 128; 137]; [226; 128; 138]; [226; 128; 168];
     [226; 128; 169]; [226; 128; 175]; [226; 129; 159]; [227; 128; 128];
     [239; 187; 191]]%nat.

(** [s] is one white space character. *)
Definition is_space (s : string) : bool :=
  existsb (String.eqb s) white_space.

(** [s.trimStart()]: the characters are read off the front, one, two or
    three bytes at a time. *)
Fixpoint trimStart (s : string) : string :=
  match s with
  | EmptyString => EmptyString
  | String a r1 =>
      if is_space (String a EmptyString) then trimStart r1
      else
        match r1 with
        | EmptyString => s
        | String b r2 =>
            if is_space (String a (String b EmptyString)) then trimStart r2
            else
              match r2 with
              | EmptyString => s
              | String c r3 =>
                  if is_space (String a (String b (String c EmptyString)))
                  then trimStart r3
                  else s
              end
        end
  end.

(** [s.trimEnd()]: a byte stays unless, with what stays of the bytes after
    it, it is one white space character. *)
Fixpoint trimEnd (s : string) : string :=
  match s with
  | EmptyString => EmptyString
  | String c s' =>
      let t := String c (trimEnd s') in
      if is_space t then EmptyString else t
  end.

(** [s.trim()] *)
Definition trim (s : string) : string := trimEnd (trimStart s).

End Str.

Module ProfileReq.
(** The keys [POST api/profile] takes out of [req.body]. *)
Record t : Type :=
  { company : Js.value; instagram : Js.value; location : Js.value;
    bio : Js.value; status : Js.value; githubusername : Js.value;
    skills : Js.value; youtube : Js.value; facebook : Js.value;
    twitter : Js.value; website : Js.value; linkedin : Js.value;
    devpost : Js.value }.
End ProfileReq.

Module ProfileFields.
(** The object [profileFields]: [user] and [social] are always assigned, any
    other key only under its [if]. *)
Record t : Type :=
  { user : string;
    company : option Js.value; website : option Js.value;
    location : option Js.value; bio : option Js.value;
    status : option Js.value; githubusername : option Js.value;
    skills : option (list string);
    social : Social.t }.

(** One key of [{ $set: fields }]: a key of the update replaces the stored
    value, a key the update does not have leaves it. *)
Definition set_key {A : Type} (new old : option A) : option A :=
  match new with
  | Some v => Some v
  | None => old
  end.

(** [{ $set: profileFields }] on a stored profile.  [social] is a key of
    every update and is replaced as one value. *)
Definition set (f : t) (p : Profile.t) : Profile.t :=
  {| Profile.user := user f;
     Profile.company := set_key (company f) (Profile.company p);
     Profile.website := set_key (website f) (Profile.website p);
     Profile.location := set_key (location f) (Profile.location p);
     Profile.bio := set_key (bio f) (Profile.bio p);
     Profile.status := set_key (status f) (Profile.status p);
     Profile.githubusername :=
       set_key (githubusername f) (Profile.githubusername p);
     Profile.skills := set_key (skills f) (Profile.skills p);
     Profile.social := social f;
     Profile.experience := Profile.experience p;
     Profile.education := Profile.education p |}.

(** Modelled from the spec: the defaults of [models/Profile.js].
    [new Profile(profileFields)] has the given fields and no experience or
    education entries. *)
Definition new (f : t) : Profile.t :=
  {| Profile.user := user f;
     Profile.company := company f; Profile.website := website f;
     Profile.location := location f; Profile.bio := bio f;
     Profile.status := status f;
     Profile.githubusername := githubusername f;
     Profile.skills := skills f; Profile.social := social f;
     Profile.experience := []; Profile.education := [] |}.
End ProfileFields.

(** [if (v) fields.key = v] *)
Definition if_truthy (v : Js.value) : option Js.value :=
  if Js.truthy v then Some v else None.

(** [if (skills) fields.skills = skills.split(',').map(skill => skill.trim())];
    a truthy value that is no string has no [split]. *)
Definition skills_field (skills : Js.value) : throwing (option (list string)) :=
  if Js.truthy skills then
    match skills with
    | Js.Str s => Return (Some (map Str.trim (Str.split ","%char s)))
    | _ => Throw TypeError
    end
  else Return None.

(** The social object of a request. *)
Definition social_fields (req : ProfileReq.t) : Social.t :=
  {| Social.youtube := if_truthy (ProfileReq.youtube req);
     Social.twitter := if_truthy (ProfileReq.twitter req);
     Social.facebook := if_truthy (ProfileReq.facebook req);
     Social.linkedin := if_truthy (ProfileReq.linkedin req);
     Social.instagram := if_truthy (ProfileReq.instagram req);
     Social.devpost := if_truthy (ProfileReq.devpost req) |}.

(** The statements that build [profileFields]. *)
Definition build_profileFields (uid : string) (req : ProfileReq.t)
  : throwing ProfileFields.t :=
  skills ← skills_field (ProfileReq.skills req);
  mret {| ProfileFields.user := uid;
          ProfileFields.company := if_truthy (ProfileReq.company req);
          ProfileFields.website := if_truthy (ProfileReq.website req);
          ProfileFields.location := if_truthy (ProfileReq.location req);
          ProfileFields.bio := if_truthy (ProfileReq.bio req);
          ProfileFields.status := if_truthy (ProfileReq.status req);
          ProfileFields.githubusername :=
            if_truthy (ProfileReq.githubusername req);
          ProfileFields.skills := skills;
          ProfileFields.social := social_fields req |}.

(** The messages of the checks that failed, in the order of the checks. *)
Definition validationResult (checks : list (Js.value * string)) : list string :=
  map snd (List.filter (fun c => Validator.isEmpty (fst c)) checks).

Module ExperienceReq.
Record t : Type :=
  { title : Js.value; company : Js.value; location : Js.value;
    from : Js.value; to : Js.value; current : Js.value;
    description : Js.value }.
End ExperienceReq.

Section Profiles.

Variable valid_id : string -> bool.

(** [Profile.findOne({ user: uid })] *)
Definition findOne (coll : gmap string Profile.t) (uid : string)
  : throwing (option Profile.t) :=
  findById valid_id coll uid.

(** [POST api/profile].  The statements before the [try] are not guarded:
    what they throw leaves the handler. *)
Definition upsertProfile (st : Store.t) (uid : string) (req : ProfileReq.t)
  : throwing (response * Store.t) :=
  let errors :=
    validationResult [(ProfileReq.status req, "Status is required");
                      (ProfileReq.skills req, "Skills is required")] in
  if negb (bool_decide (errors = [])) then Return (json 400 (Errors errors), st)
  else
    profileFields ← build_profileFields uid req;
    match
      profile ← findOne (Store.profiles st) uid;
      match profile with
      | Some p =>
          let p' := ProfileFields.set profileFields p in
          mret (json 200 (ProfileJson p'), Store.save_profile uid p' st)
      | None =>
          let p' := ProfileFields.new profileFields in
          mret (json 200 (ProfileJson p'), Store.save_profile uid p' st)
      end
    with
    | Return r => Return r
    | Throw _ => Return (server_error, st)
    end.

(** [PUT api/profile/experience].  [newId] is the [_id] the store gives the
    new entry. *)
Definition addExperience (st : Store.t) (uid : string) (req : ExperienceReq.t)
    (newId : string) : response * Store.t :=
  let errors :=
    validationResult [(ExperienceReq.title req, "Title is required");
                      (ExperienceReq.company req, "Company is required");
                      (ExperienceReq.from req, "Form date is required")] in
  if negb (bool_decide (errors = [])) then (json 400 (Errors errors), st)
  else
    let newExp :=
      {| Experience.id := newId;
         Experience.title := ExperienceReq.title req;
         Experience.company := ExperienceReq.company req;
         Experience.location := ExperienceReq.location req;
         Experience.from := ExperienceReq.from req;
         Experience.to := ExperienceReq.to req;
         Experience.current := ExperienceReq.current req;
         Experience.description := ExperienceReq.description req |} in
    match
      profile ← findOne (Store.profiles st) uid;
      p ← deref profile;
      let p' :=
        Profile.set_experience (Arr.unshift newExp (Profile.experience p)) p in
      mret (json 200 (ProfileJson p'), Store.save_profile uid p' st)
    with
    | Return r => r
    | Throw _ => (server_error, st)
    end.

(** [DELETE api/profile/experience/:exp_id] *)
Definition removeExperience (st : Store.t) (uid exp_id : string)
  : response * Store.t :=
  match
    profile ← findOne (Store.profiles st) uid;
    p ← deref profile;
    let removeIndex :=
      Arr.indexOf exp_id (map Experience.id (Profile.experience p)) in
    if 0 <=? removeIndex then
      let p' :=
        Profile.set_experience
          (Arr.splice1 removeIndex (Profile.experience p)) p in
      mret (json 200 (ProfileJson p'), Store.save_profile uid p' st)
    else mret (json 200 (ProfileJson p), st)
  with
  | Return r => r
  | Throw _ => (server_error, st)
  end.

(** [DELETE api/profile/education/:edu_id] *)
Definition removeEducation (st : Store.t) (uid edu_id : string)
  : response * Store.t :=
  match
    profile ← findOne (Store.profiles st) uid;
    p ← deref profile;
    let removeIndex :=
      Arr.indexOf edu_id (map Education.id (Profile.education p)) in
    if 0 <=? removeIndex then
      let p' :=
        Profile.set_education
          (Arr.splice1 removeIndex (Profile.education p)) p in
      mret (json 200 (ProfileJson p'), Store.save_profile uid p' st)
    else mret (json 200 (ProfileJson p), st)
  with
  | Return r => r
  | Throw _ => (server_error, st)
  end.

End Profiles.

(** ** Keys of a profile, for statements about every key *)

Module Key.

(** The top-level keys that hold one value. *)
Inductive top : Type :=
  | company | website | location | bio | status | githubusername.

(** The keys of the social object. *)
Inductive social : Type :=
  | youtube | twitter | facebook | linkedin | instagram | devpost.

#[global] Instance top_eq_dec : EqDecision top.
Proof. solve_decision. Defined.

#[global] Instance social_eq_dec : EqDecision social.
Proof. solve_decision. Defined.

(** [req.body[k]] *)
Definition submitted (k : top) (req : ProfileReq.t) : Js.value :=
  match k with
  | company => ProfileReq.company req
  | website => ProfileReq.website req
  | location => ProfileReq.location req
  | bio => ProfileReq.bio req
  | status => ProfileReq.status req
  | githubusername => ProfileReq.githubusername req
  end.

Definition submitted_social (k : social) (req : ProfileReq.t) : Js.value :=
  match k with
  | youtube => ProfileReq.youtube req
  | twitter => ProfileReq.twitter req
  | facebook => ProfileReq.facebook req
  | linkedin => ProfileReq.linkedin req
  | instagram => ProfileReq.instagram req
  | devpost => ProfileReq.devpost req
  end.

(** [profile[k]] *)
Definition stored (k : top) (p : Profile.t) : option Js.value :=
  match k with
  | company => Profile.company p
  | website => Profile.website p
  | location => Profile.location p
  | bio => Profile.bio p
  | status => Profile.status p
  | githubusername => Profile.githubusername p
  end.

(** [social[k]] *)
Definition link (k : social) (s : Social.t) : option Js.value :=
  match k with
  | youtube => Social.youtube s
  | twitter => Social.twitter s
  | facebook => Social.facebook s
  | linkedin => Social.linkedin s
  | instagram => Social.instagram s
  | devpost => Social.devpost s
  end.

(** [profileFields[k]] *)
Definition updated (k : top) (f : ProfileFields.t) : option Js.value :=
  match k with
  | company => ProfileFields.company f
  | website => ProfileFields.website f
  | location => ProfileFields.location f
  | bio => ProfileFields.bio f
  | status => ProfileFields.status f
  | githubusername => ProfileFields.githubusername f
  end.

(** The request [req] with [v] under the key [k]. *)
Definition submit (k : top) (v : Js.value) (req : ProfileReq.t)
  : ProfileReq.t :=
  let pick k' := if bool_decide (k' = k) then v else submitted k' req in
  {| ProfileReq.company := pick company;
     ProfileReq.instagram := ProfileReq.instagram req;
     ProfileReq.location := pick location;
     ProfileReq.bio := pick bio;
     ProfileReq.status := pick status;
     ProfileReq.githubusername := pick githubusername;
     ProfileReq.skills := ProfileReq.skills req;
     ProfileReq.youtube := ProfileReq.youtube req;
     ProfileReq.facebook := ProfileReq.facebook req;
     ProfileReq.twitter := ProfileReq.twitter req;
     ProfileReq.website := pick website;
     ProfileReq.linkedin := ProfileReq.linkedin req;
     ProfileReq.devpost := ProfileReq.devpost req |}.

Definition submit_social (k : social) (v : Js.value) (req : ProfileReq.t)
  : ProfileReq.t :=
  let pick k' := if bool_decide (k' = k) then v else submitted_social k' req in
  {| ProfileReq.company := ProfileReq.company req;
     ProfileReq.instagram := pick instagram;
     ProfileReq.location := ProfileReq.location req;
     ProfileReq.bio := ProfileReq.bio req;
     ProfileReq.status := ProfileReq.status req;
     ProfileReq.githubusername := ProfileReq.githubusername req;
     ProfileReq.skills := ProfileReq.skills req;
     ProfileReq.youtube := pick youtube;
     ProfileReq.facebook := pick facebook;
     ProfileReq.twitter := pick twitter;
     ProfileReq.website := ProfileReq.website req;
     ProfileReq.linkedin := pick linkedin;
     ProfileReq.devpost := pick devpost |}.

End Key.

(** ** Sample data *)

Module Sample.

Definition is_hex (c : Ascii.ascii) : bool :=
  let n := Ascii.nat_of_ascii c in
  ((48 <=? n) && (n <=? 57) || (97 <=? n) && (n <=? 102)
   || (65 <=? n) && (n <=? 70))%nat.

(** An id format to run the handlers with: 24 hexadecimal digits. *)
Definition objectid (s : string) : bool :=
  (String.length s =? 24)%nat && forallb is_hex (String.list_ascii_of_string s).

Definition alice : string := "5d7a514b5d2c12c7449be041".
Definition bob : string := "5d7a514b5d2c12c7449be042".
Definition carol : string := "5d7a514b5d2c12c7449be043".
Definition hello_id : string := "5d7a51f05d2c12c7449be0a1".
Definition secret_id : string := "5d7a51f05d2c12c7449be0a2".
Definition unknown_id : string := "5d7a51f05d2c12c7449be0ff".

Definition like_of (uid : string) : Like.t := {| Like.user := uid |}.

Definition comment1 : Comment.t :=
  {| Comment.id := "5d7a52aa5d2c12c7449be0c1"; Comment.text := Js.Str "first";
     Comment.name := "Bob"; Comment.avatar := "b.png"; Comment.user := bob |}.

Definition comment2 : Comment.t :=
  {| Comment.id := "5d7a52aa5d2c12c7449be0c2"; Comment.text := Js.Str "second";
     Comment.name := "Alice"; Comment.avatar := "a.png";
     Comment.user := alice |}.

Definition comment3 : Comment.t :=
  {| Comment.id := "5d7a52aa5d2c12c7449be0c3"; Comment.text := Js.Str "third";
     Comment.name := "Bob"; Comment.avatar := "b.png"; Comment.user := bob |}.

(** A public post of Alice, liked by Bob, with three comments. *)
Definition hello : Post.t :=
  {| Post.text := Js.Str "hello"; Post.name := "Alice";
     Post.avatar := "a.png"; Post.user := alice; Post.ispublic := true;
     Post.date := 1568297456; Post.likes := [like_of bob];
     Post.comments := [comment1; comment2; comment3] |}.

(** A private post of Alice. *)
Definition secret : Post.t :=
  {| Post.text := Js.Str "secret"; Post.name := "Alice";
     Post.avatar := "a.png"; Post.user := alice; Post.ispublic := false;
     Post.date := 1568297500; Post.likes := []; Post.comments := [] |}.

Definition job : Experience.t :=
  {| Experience.id := "5d7a53005d2c12c7449be0e1";
     Experience.title := Js.Str "Developer";
     Experience.company := Js.Str "Initech";
     Experience.location := Js.Undefined;
     Experience.from := Js.Str "2015-01-01"; Experience.to := Js.Undefined;
     Experience.current := Js.Bool true;
     Experience.description := Js.Undefined |}.

Definition school : Education.t :=
  {| Education.id := "5d7a53005d2c12c7449be0d1";
     Education.school := Js.Str "MIT"; Education.degree := Js.Str "BSc";
     Education.fieldofstudy := Js.Str "CS";
     Education.location := Js.Undefined;
     Education.from := Js.Str "2010-09-01"; Education.to := Js.Undefined;
     Education.current := Js.Bool false;
     Education.description := Js.Undefined |}.

(** Alice's profile: a location, a twitter link, one job, one school. *)
Definition alice_profile : Profile.t :=
  {| Profile.user := alice; Profile.company := None;
     Profile.website := None;
     Profile.location := Some (Js.Str "Boston");
     Profile.bio := None; Profile.status := Some (Js.Str "Developer");
     Profile.githubusername := None;
     Profile.skills := Some ["js"; "css"];
     Profile.social :=
       {| Social.youtube := None;
          Social.twitter := Some (Js.Str "https://twitter.com/alice");
          Social.facebook := None; Social.linkedin := None;
          Social.instagram := None; Social.devpost := None |};
     Profile.experience := [job]; Profile.education := [school] |}.

(** Alice, Bob and Carol are users; only Alice has a profile. *)
Definition store : Store.t :=
  {| Store.users :=
       {[ alice := {| User.name := "Alice"; User.avatar := "a.png" |};
          bob := {| User.name := "Bob"; User.avatar := "b.png" |};
          carol := {| User.name := "Carol"; User.avatar := "c.png" |} ]};
     Store.profiles := {[ alice := alice_profile ]};
     Store.posts := {[ hello_id := hello; secret_id := secret ]} |}.

(** A body for [POST api/profile] with the two required keys only. *)
Definition required_only : ProfileReq.t :=
  {| ProfileReq.company := Js.Undefined; ProfileReq.instagram := Js.Undefined;
     ProfileReq.location := Js.Undefined; ProfileReq.bio := Js.Undefined;
     ProfileReq.status := Js.Str "Senior developer";
     ProfileReq.githubusername := Js.Undefined;
     ProfileReq.skills := Js.Str "js, rust";
     ProfileReq.youtube := Js.Undefined; ProfileReq.facebook := Js.Undefined;
     ProfileReq.twitter := Js.Undefined; ProfileReq.website := Js.Undefined;
     ProfileReq.linkedin := Js.Undefined; ProfileReq.devpost := Js.Undefined |}.

(** A body for [PUT api/profile/experience]. *)
Definition new_job : ExperienceReq.t :=
  {| ExperienceReq.title := Js.Str "Lead";
     ExperienceReq.company := Js.Str "Acme";
     ExperienceReq.location := Js.Undefined;
     ExperienceReq.from := Js.Str "2019-01-01";
     ExperienceReq.to := Js.Undefined; ExperienceReq.current := Js.Bool true;
     ExperienceReq.description := Js.Undefined |}.


(** A body with the required keys and a youtube link, no other link. *)
Definition youtube_only : ProfileReq.t :=
  Key.submit_social Key.youtube (Js.Str "https://youtube.com/alice")
    required_only.

(** A body with the required keys and an empty twitter link. *)
Definition empty_twitter : ProfileReq.t :=
  Key.submit_social Key.twitter (Js.Str EmptyString) required_only.

(** A body with the required keys and a company. *)
Definition company_only : ProfileReq.t :=
  Key.submit Key.company (Js.Str "Initech") required_only.

End Sample.

(** ** Requests the profile route accepts *)

(** A body passes the two checks of [POST api/profile], and its [skills] can
    be split: it is a string unless it is falsy. *)
Definition accepted (req : ProfileReq.t) : bool :=
  negb (Validator.isEmpty (ProfileReq.status req))
  && negb (Validator.isEmpty (ProfileReq.skills req))
  && (negb (Js.truthy (ProfileReq.skills req))
      || String.eqb (Js.typeof (ProfileReq.skills req)) "string").

(** ** The other routes *)

(** What a route that only reads answers: an error response, or
    [res.json(a)] for the document or documents [a] it read. *)
Inductive answer (A : Type) : Type :=
  | Fails (r : response)
  | Json (a : A).

Arguments Fails {A} r.
Arguments Json {A} a.

Module EducationReq.
Record t : Type :=
  { school : Js.value; degree : Js.value; fieldofstudy : Js.value;
    location : Js.value; from : Js.value; to : Js.value;
    current : Js.value; description : Js.value }.
End EducationReq.

(** [{ date: -1 }]: a post comes before the posts that are not newer. *)
Definition newer_first (a b : string * Post.t) : Prop :=
  Post.date (snd b) <= Post.date (snd a).

#[global] Instance newer_first_dec : RelDecision newer_first.
Proof. intros a b. unfold newer_first. apply _. Defined.

(** [Post.find({ ispublic: true })]: the stored posts with their [_id]. *)
Definition find_public (posts : gmap string Post.t)
  : list (string * Post.t) :=
  List.filter (fun d => Post.ispublic (snd d)) (map_to_list posts).

(** [.populate('user', ['name', 'avatar'])]: the profile with the user its
    [user] key names, [null] when there is no such user. *)
Definition populate (users : gmap string User.t) (p : Profile.t)
  : Profile.t * option User.t :=
  (p, users !! Profile.user p).

Section OtherRoutes.

Variable valid_id : string -> bool.

(** [GET api/posts].  The order of two posts of the same date is the
    store's. *)
Definition listPublicPosts (st : Store.t) : answer (list (string * Post.t)) :=
  Json (merge_sort newer_first (find_public (Store.posts st))).

(** [POST api/posts/comment/:id].  [newId] is the [_id] the store gives the
    new comment. *)
Definition addComment (st : Store.t) (id uid : string) (text : Js.value)
    (newId : string) : response * Store.t :=
  let errors := validationResult [(text, "Comment text is required")] in
  if negb (bool_decide (errors = [])) then (json 400 (Errors errors), st)
  else
    match
      user ← findById valid_id (Store.users st) uid;
      post ← findById valid_id (Store.posts st) id;
      p ← deref post;
      if negb (Post.ispublic p) then
        mret (json 404 (Errors [ERR_NOTFOUND]), st)
      else
        u ← deref user;
        let newComment :=
          {| Comment.id := newId; Comment.text := text;
             Comment.name := User.name u; Comment.avatar := User.avatar u;
             Comment.user := uid |} in
        let p' :=
          Post.set_comments (Arr.unshift newComment (Post.comments p)) p in
        mret (json 200 (CommentsJson (Post.comments p')),
              Store.save_post id p' st)
    with
    | Return r => r
    | Throw err =>
        if kind_is err "ObjectId" then (json 404 (Errors [ERR_NOTFOUND]), st)
        else (server_error, st)
    end.

(** [GET api/profile/me] *)
Definition getMe (st : Store.t) (uid : string)
  : answer (Profile.t * option User.t) :=
  match findOne valid_id (Store.profiles st) uid with
  | Return (Some p) => Json (populate (Store.users st) p)
  | Return None => Fails (json 400 (Msg "There is no profile for this user"))
  | Throw _ => Fails server_error
  end.

(** [GET api/profile] *)
Definition getProfiles (st : Store.t)
  : answer (list (Profile.t * option User.t)) :=
  Json (map (fun d => populate (Store.users st) (snd d))
          (map_to_list (Store.profiles st))).

(** [GET api/profile/user/:user_id] *)
Definition getProfileByUserId (st : Store.t) (user_id : string)
  : answer (Profile.t * option User.t) :=
  match findOne valid_id (Store.profiles st) user_id with
  | Return (Some p) => Json (populate (Store.users st) p)
  | Return None =>
      Fails (json 400 (Errors ["User does not have public profile"]))
  | Throw err =>
      if kind_is err "ObjectId"
      then Fails (json 400 (Errors ["User does not exist"]))
      else Fails server_error
  end.

(** [Model.findOneAndRemove(filter)] for a filter on the key of the
    collection: the collection without the document. *)
Definition findOneAndRemove {D : Type} (coll : gmap string D) (key : string)
  : throwing (gmap string D) :=
  if valid_id key then Return (delete key coll)
  else Throw (CastError "ObjectId").

(** [DELETE api/profile]: the profile, then the user; the posts stay. *)
Definition deleteProfileAndUser (st : Store.t) (uid : string)
  : response * Store.t :=
  match
    profiles ← findOneAndRemove (Store.profiles st) uid;
    users ← findOneAndRemove (Store.users st) uid;
    mret (json 200 (Msg "User deleted"),
          {| Store.users := users; Store.profiles := profiles;
             Store.posts := Store.posts st |})
  with
  | Return r => r
  | Throw _ => (server_error, st)
  end.

(** [PUT api/profile/education].  [newId] is the [_id] the store gives the
    new entry. *)
Definition addEducation (st : Store.t) (uid : string) (req : EducationReq.t)
    (newId : string) : response * Store.t :=
  let errors :=
    validationResult
      [(EducationReq.school req, "School is required");
       (EducationReq.degree req, "Degree is required");
       (EducationReq.fieldofstudy req, "Field of study is required");
       (EducationReq.from req, "Form date is required")] in
  if negb (bool_decide (errors = [])) then (json 400 (Errors errors), st)
  else
    let newEdu :=
      {| Education.id := newId;
         Education.school := EducationReq.school req;
         Education.degree := EducationReq.degree req;
         Education.fieldofstudy := EducationReq.fieldofstudy req;
         Education.location := EducationReq.location req;
         Education.from := EducationReq.from req;
         Education.to := EducationReq.to req;
         Education.current := EducationReq.current req;
         Education.description := EducationReq.description req |} in
    match
      profile ← findOne valid_id (Store.profiles st) uid;
      p ← deref profile;
      let p' :=
        Profile.set_education (Arr.unshift newEdu (Profile.education p)) p in
      mret (json 200 (ProfileJson p'), Store.save_profile uid p' st)
    with
    | Return r => r
    | Throw _ => (server_error, st)
    end.

(** [GET api/auth].  The user document is the part of it the other routes
    read. *)
Definition getAuth (st : Store.t) (uid : string) : answer User.t :=
  match findById valid_id (Store.users st) uid with
  | Return (Some user) => Json user
  | Return None => Fails (json 400 (Errors ["User was deleted"]))
  | Throw _ => Fails server_error
  end.

End OtherRoutes.

(** ** Invariants of the store *)

(** No user is twice among the likes of a post. *)
Definition unique_likes (st : Store.t) : Prop :=
  map_Forall (fun _ p => NoDup (map Like.user (Post.likes p)))
    (Store.posts st).

Module Fixture.

(** A body for [PUT api/profile/education]. *)
Definition new_school : EducationReq.t :=
  {| EducationReq.school := Js.Str "ETH";
     EducationReq.degree := Js.Str "MSc";
     EducationReq.fieldofstudy := Js.Str "CS";
     EducationReq.location := Js.Undefined;
     EducationReq.from := Js.Str "2014-09-01";
     EducationReq.to := Js.Str "2016-06-30";
     EducationReq.current := Js.Bool false;
     EducationReq.description := Js.Undefined |}.


(** A body for [POST api/profile] whose skills have white space around
    them: a space, a no-break space (U+00A0) and an ideographic space
    (U+3000) before the first, a tab after the second, a line separator
    (U+2028) after the last. *)
Definition spaced_skills : ProfileReq.t :=
  {| ProfileReq.company := Js.Undefined; ProfileReq.instagram := Js.Undefined;
     ProfileReq.location := Js.Undefined; ProfileReq.bio := Js.Undefined;
     ProfileReq.status := Js.Str "Developer";
     ProfileReq.githubusername := Js.Undefined;
     ProfileReq.skills :=
       Js.Str (Str.bytes [32; 194; 160; 227; 128; 128]%nat
               ++ "js, c sharp" ++ Str.bytes [9]%nat ++ ",rust"
               ++ Str.bytes [226; 128; 168]%nat)%string;
     ProfileReq.youtube := Js.Undefined; ProfileReq.facebook := Js.Undefined;
     ProfileReq.twitter := Js.Undefined; ProfileReq.website := Js.Undefined;
     ProfileReq.linkedin := Js.Undefined; ProfileReq.devpost := Js.Undefined |}.

(** A body for [POST api/posts] that asks for a private post. *)
Definition private_note : PostReq.t :=
  {| PostReq.text := Js.Str "note"; PostReq.ispublic := Js.Bool false |}.

(** An experience entry and an education entry with a given id. *)
Definition job_with (id title : string) : Experience.t :=
  {| Experience.id := id; Experience.title := Js.Str title;
     Experience.company := Js.Str "Initech";
     Experience.location := Js.Undefined;
     Experience.from := Js.Str "2015-01-01"; Experience.to := Js.Undefined;
     Experience.current := Js.Bool false;
     Experience.description := Js.Undefined |}.

Definition school_with (id name : string) : Education.t :=
  {| Education.id := id; Education.school := Js.Str name;
     Education.degree := Js.Str "BSc"; Education.fieldofstudy := Js.Str "CS";
     Education.location := Js.Undefined;
     Education.from := Js.Str "2010-09-01"; Education.to := Js.Undefined;
     Education.current := Js.Bool false;
     Education.description := Js.Undefined |}.

Definition job_a : Experience.t := job_with "5d7a53005d2c12c7449be0e5" "Intern".
Definition job_b : Experience.t := job_with "5d7a53005d2c12c7449be0e6" "Junior".
Definition job_c : Experience.t := job_with "5d7a53005d2c12c7449be0e7" "Senior".
Definition school_a : Education.t :=
  school_with "5d7a53005d2c12c7449be0d5" "MIT".
Definition school_b : Education.t :=
  school_with "5d7a53005d2c12c7449be0d6" "ETH".
Definition school_c : Education.t :=
  school_with "5d7a53005d2c12c7449be0d7" "EPFL".

(** Carol's profile: three jobs and three schools. *)
Definition carol_profile : Profile.t :=
  {| Profile.user := Sample.carol; Profile.company := None;
     Profile.website := None; Profile.location := Some (Js.Str "Bern");
     Profile.bio := None; Profile.status := Some (Js.Str "Developer");
     Profile.githubusername := None; Profile.skills := Some ["go"];
     Profile.social := Profile.social Sample.alice_profile;
     Profile.experience := [job_a; job_b; job_c];
     Profile.education := [school_a; school_b; school_c] |}.

(** The sample store with Carol's profile added. *)
Definition store : Store.t :=
  Store.save_profile Sample.carol carol_profile Sample.store.

Definition comment_id : string := "5d7a52aa5d2c12c7449be0c4".
Definition entry_id : string := "5d7a53005d2c12c7449be0e2".
Definition post_id : string := "5d7a51f05d2c12c7449be0a3".

End Fixture.

(** * Properties *)

(** ** Proof steps *)

(** Runs a handler up to its first test on the document it loaded. *)
Ltac load_document valid found :=
  unfold findById; rewrite valid; cbn [mbind throwing_bind];
  rewrite ?found; cbn [deref mbind throwing_bind].

(** Decides a closed decidable statement by evaluation. *)
Ltac by_evaluation := apply (bool_decide_unpack _); vm_compute; exact I.

(** Splits a goal about a handler into the paths through the handler. *)
Ltac handler_paths :=
  cbv zeta; unfold mbind, throwing_bind, mret, throwing_ret, deref;
  repeat
    (match goal with
     | |- context [match ?x with _ => _ end] =>
         lazymatch x with
         | context [match _ with _ => _ end] => fail
         | _ => destruct x eqn:?
         end
     end;
     cbn [fst snd status json send server_error]).

(** ** Arrays *)

Section ArrFacts.

Context {A : Type}.
Implicit Types (f : A -> bool) (l : list A).

Lemma findIndex_absent f l :
  Forall (fun x => f x = false) l -> Arr.findIndex f l = -1.
Proof.
  induction 1 as [|x l Hx _ IH]; simpl; [done|].
  by rewrite Hx, IH.
Qed.

Lemma findIndex_first f l1 x l2 :
  Forall (fun y => f y = false) l1 -> f x = true ->
  Arr.findIndex f (l1 ++ x :: l2) = Z.of_nat (length l1).
Proof.
  intros Hl1 Hx. induction Hl1 as [|y l1 Hy _ IH]; simpl.
  - by rewrite Hx.
  - rewrite Hy, IH.
    destruct (Z.ltb_spec (Z.of_nat (length l1)) 0); lia.
Qed.

Lemma get_middle l1 x l2 :
  Arr.get (l1 ++ x :: l2) (Z.of_nat (length l1)) = Some x.
Proof.
  unfold Arr.get.
  destruct (Z.ltb_spec (Z.of_nat (length l1)) 0); [lia|].
  rewrite Nat2Z.id. by apply list_lookup_middle.
Qed.

Lemma get_minus_one l : Arr.get l (-1) = None.
Proof. done. Qed.

Lemma splice1_middle l1 x l2 :
  Arr.splice1 (Z.of_nat (length l1)) (l1 ++ x :: l2) = l1 ++ l2.
Proof.
  unfold Arr.splice1.
  destruct (Z.ltb_spec (Z.of_nat (length l1)) 0); [lia|].
  rewrite length_app; simpl.
  rewrite Z.min_l; [|lia]. rewrite Nat2Z.id.
  by rewrite delete_middle.
Qed.

Lemma splice1_head x l : Arr.splice1 0 (x :: l) = l.
Proof. apply (splice1_middle [] x l). Qed.

Lemma filter_absent f l :
  Forall (fun x => f x = false) l -> List.filter f l = [].
Proof.
  induction 1 as [|x l Hx _ IH]; simpl; [done|]. by rewrite Hx.
Qed.

Lemma filter_present f l x :
  x ∈ l -> f x = true -> 0 < Z.of_nat (length (List.filter f l)).
Proof.
  intros Hin Hx. induction Hin as [x l|x y l _ IH]; cbn [List.filter].
  - rewrite Hx, length_cons. lia.
  - specialize (IH Hx). destruct (f y); [rewrite length_cons|]; lia.
Qed.

End ArrFacts.

(** A string that is none of the images of a list fails the test of
    equality with each element. *)
Lemma absent_key {A : Type} (key : A -> string) (k : string) (l : list A) :
  k ∉ map key l -> Forall (fun x => String.eqb (key x) k = false) l.
Proof.
  intros Hk. apply Forall_forall. intros x Hx.
  apply String.eqb_neq. intros <-. apply Hk.
  apply list_elem_of_fmap. eauto.
Qed.

Lemma absent_key_sym {A : Type} (key : A -> string) (k : string) (l : list A) :
  k ∉ map key l -> Forall (fun x => String.eqb k x = false) (map key l).
Proof.
  intros Hk. apply Forall_forall. intros x Hx.
  apply String.eqb_neq. by intros <-.
Qed.

(** ** The store *)

Lemma save_post_same id p st :
  Store.posts st !! id = Some p -> Store.save_post id p st = st.
Proof.
  intros Hp. destruct st as [us pr ps]; unfold Store.save_post, Store.set_posts.
  simpl in *. by rewrite insert_id.
Qed.

Lemma save_post_twice id p q st :
  Store.save_post id q (Store.save_post id p st) = Store.save_post id q st.
Proof.
  destruct st as [us pr ps]; unfold Store.save_post, Store.set_posts; simpl.
  by rewrite insert_insert_eq.
Qed.

Lemma lookup_save_post id p st :
  Store.posts (Store.save_post id p st) !! id = Some p.
Proof. apply lookup_insert_eq. Qed.

Lemma lookup_remove_post id st :
  Store.posts (Store.remove_post id st) !! id = None.
Proof. apply lookup_delete_eq. Qed.

Lemma set_likes_back l p :
  Post.set_likes (Post.likes p) (Post.set_likes l p) = p.
Proof. by destruct p. Qed.

(** ** The post routes *)

Lemma liked_by_self uid : liked_by uid {| Like.user := uid |} = true.
Proof. apply String.eqb_refl. Qed.

Section PostFacts.

Variable valid_id : string -> bool.

(** What [GET api/posts/:id] answers when the id is no id of the store and
    when it finds a post. *)
Lemma getPost_found st id p :
  valid_id id = true -> Store.posts st !! id = Some p ->
  getPost valid_id st id =
    if Post.ispublic p then json 200 (PostJson p)
    else json 404 (Errors [ERR_NOTFOUND]).
Proof.
  intros Hid Hp. unfold getPost. load_document Hid Hp.
  by destruct (Post.ispublic p).
Qed.

Lemma getPost_malformed st id :
  valid_id id = false ->
  getPost valid_id st id = json 404 (Errors [ERR_NOTFOUND]).
Proof. intros Hid. unfold getPost, findById. by rewrite Hid. Qed.

(** C1: [getPost] answers a well-formed id that resolves to no stored post
    with the plain 500 response, not with the 404 response that carries
    the message "Post not found or is private". *)
Theorem getPost_unresolved_server_error st id :
  valid_id id = true -> Store.posts st !! id = None ->
  getPost valid_id st id = send 500 "Server Error"
  /\ getPost valid_id st id <> json 404 (Errors [ERR_NOTFOUND]).
Proof.
  intros Hid Hp. unfold getPost. load_document Hid Hp. by split.
Qed.

(** C2: a request with a non-empty text from an existing user creates a post
    whose [ispublic] is false exactly when the submitted value is the
    boolean false; the string "false", the number 0 and a missing value give
    a public post. *)
Theorem createPost_ispublic st uid u req newId now :
  Validator.isEmpty (PostReq.text req) = false ->
  valid_id uid = true -> Store.users st !! uid = Some u ->
  exists p,
    createPost valid_id st uid req newId now
      = (json 200 (PostJson p), Store.save_post newId p st)
    /\ Store.posts (Store.save_post newId p st) !! newId = Some p
    /\ (Post.ispublic p = false <-> PostReq.ispublic req = Js.Bool false)
    /\ (PostReq.ispublic req <> Js.Bool false -> Post.ispublic p = true)
    /\ (PostReq.ispublic req = Js.Str "false" -> Post.ispublic p = true)
    /\ (PostReq.ispublic req = Js.Num 0 -> Post.ispublic p = true)
    /\ (PostReq.ispublic req = Js.Undefined -> Post.ispublic p = true).
Proof.
  intros Htext Hid Hu. unfold createPost. rewrite Htext.
  load_document Hid Hu.
  eexists. split; [reflexivity|]. split; [apply lookup_save_post|].
  destruct (PostReq.ispublic req) as [| |[]| |]; simpl;
    repeat split; intros; congruence.
Qed.

(** [PUT api/posts/unlike/:id] on a public post removes the first like of
    the requester and keeps the others in their order. *)
Lemma unlikePost_first st id uid p l1 l2 :
  valid_id id = true -> Store.posts st !! id = Some p ->
  Post.ispublic p = true ->
  Post.likes p = l1 ++ {| Like.user := uid |} :: l2 ->
  uid ∉ map Like.user l1 ->
  unlikePost valid_id st id uid
    = (json 200 (LikesJson (l1 ++ l2)),
       Store.save_post id (Post.set_likes (l1 ++ l2) p) st).
Proof.
  intros Hid Hp Hpub Hlikes Hl1.
  unfold unlikePost. load_document Hid Hp. rewrite Hpub, Hlikes. cbn [negb].
  pose proof (filter_present (liked_by uid) (l1 ++ {| Like.user := uid |} :: l2)
                {| Like.user := uid |}) as Hlen.
  destruct (Z.eqb_spec
    (Z.of_nat (length (List.filter (liked_by uid)
                         (l1 ++ {| Like.user := uid |} :: l2)))) 0) as [E|_].
  { rewrite E in Hlen. exfalso.
    assert (0 < 0) by (apply Hlen; [set_solver|apply liked_by_self]). lia. }
  unfold Arr.indexOf. rewrite map_app. cbn [map Like.user].
  rewrite findIndex_first;
    [|by apply absent_key_sym|apply String.eqb_refl].
  rewrite length_map.
  destruct (Z.leb_spec 0 (Z.of_nat (length l1))); [|lia].
  by rewrite splice1_middle.
Qed.

(** C4: on a public post, a like by a user who is not among the likes
    followed by an unlike by the same user gives back the likes as they
    were, in the same order, and the store as it was. *)
Theorem like_then_unlike st id uid p :
  valid_id id = true -> Store.posts st !! id = Some p ->
  Post.ispublic p = true ->
  uid ∉ map Like.user (Post.likes p) ->
  exists st1,
    likePost valid_id st id uid
      = (json 200 (LikesJson ({| Like.user := uid |} :: Post.likes p)), st1)
    /\ unlikePost valid_id st1 id uid
      = (json 200 (LikesJson (Post.likes p)), st).
Proof.
  intros Hid Hp Hpub Hfresh.
  eexists. split.
  - unfold likePost. load_document Hid Hp. rewrite Hpub. cbn [negb].
    rewrite (filter_absent (liked_by uid)) by (by apply absent_key).
    reflexivity.
  - erewrite (unlikePost_first _ id uid _ [] (Post.likes p));
      [|done|apply lookup_save_post|done|done|set_solver].
    cbn [app]. by rewrite save_post_twice, set_likes_back, save_post_same.
Qed.

(** C5: on a public post, a like by a user who is among the likes is
    answered with 400 "Post already liked", an unlike by a user who is not
    among them with 400 "Post was never liked"; neither writes to the
    store. *)
Theorem like_unlike_bad_request st id uid p :
  valid_id id = true -> Store.posts st !! id = Some p ->
  Post.ispublic p = true ->
  (uid ∈ map Like.user (Post.likes p) ->
     likePost valid_id st id uid = (json 400 (Msg "Post already liked"), st))
  /\ (uid ∉ map Like.user (Post.likes p) ->
     unlikePost valid_id st id uid
       = (json 400 (Msg "Post was never liked"), st)).
Proof.
  intros Hid Hp Hpub. split; intros Hlikes.
  - unfold likePost. load_document Hid Hp. rewrite Hpub. cbn [negb].
    apply list_elem_of_fmap in Hlikes as (like & -> & Hin).
    pose proof (filter_present (liked_by (Like.user like)) _ like Hin
                  (String.eqb_refl _)) as Hlen.
    destruct (Z.ltb_spec 0
      (Z.of_nat (length (List.filter (liked_by (Like.user like))
                           (Post.likes p))))); [done|lia].
  - unfold unlikePost. load_document Hid Hp. rewrite Hpub. cbn [negb].
    rewrite (filter_absent (liked_by uid)) by (by apply absent_key).
    reflexivity.
Qed.

Lemma remove_saved_post id p st :
  Store.remove_post id (Store.save_post id p st) = Store.remove_post id st.
Proof.
  destruct st as [us pr ps].
  unfold Store.remove_post, Store.save_post, Store.set_posts; simpl.
  by rewrite delete_insert_eq.
Qed.

(** C6: [deletePost] answers 404 "Post not found" when the id resolves to
    no post; for a post it finds, it answers 401 to anyone but the owner and
    keeps the post, and removes the post for the owner, whatever the flag
    [ispublic] says. *)
Theorem deletePost_cases st id uid :
  (valid_id id = false \/ Store.posts st !! id = None ->
     deletePost valid_id st id uid = (json 404 (Errors ["Post not found"]), st))
  /\ (forall p,
        valid_id id = true -> Store.posts st !! id = Some p ->
        (Post.user p <> uid ->
           deletePost valid_id st id uid
             = (json 401 (Errors ["User unauthorized to delete post"]), st))
        /\ (Post.user p = uid ->
           deletePost valid_id st id uid
             = (json 200 (Msg "Post removed"), Store.remove_post id st)
           /\ Store.posts (Store.remove_post id st) !! id = None)
        /\ (forall b,
              Post.user p = uid ->
              deletePost valid_id
                  (Store.save_post id (Post.set_ispublic b p) st) id uid
                = (json 200 (Msg "Post removed"), Store.remove_post id st))).
Proof.
  split.
  - intros Hno. unfold deletePost, findById.
    destruct (valid_id id) eqn:Hid; [|done].
    destruct Hno as [|Hp]; [done|]. by rewrite Hp.
  - intros p Hid Hp. split; [|split].
    + intros Hu. unfold deletePost. load_document Hid Hp.
      apply String.eqb_neq in Hu. by rewrite Hu.
    + intros Hu. split; [|apply lookup_remove_post].
      unfold deletePost. load_document Hid Hp.
      apply String.eqb_eq in Hu. by rewrite Hu.
    + intros b Hu. unfold deletePost.
      load_document Hid (lookup_save_post id).
      apply String.eqb_eq in Hu. cbn [Post.user Post.set_ispublic].
      rewrite Hu. cbn [negb mret throwing_ret].
      by rewrite remove_saved_post.
Qed.

(** C7: on an existing post, [deleteComment] answers 404 "Comment does not
    exist" when no comment has the id; when the first comment with the id
    is not the requester's it answers 401 and writes nothing; otherwise it
    removes that comment and keeps the others in their order: the post
    stored under the id afterwards has the comments before and after the
    removed one and is otherwise as it was, and nothing else in the store
    has changed. *)
Theorem deleteComment_cases st id cid uid p :
  valid_id id = true -> Store.posts st !! id = Some p ->
  (cid ∉ map Comment.id (Post.comments p) ->
     deleteComment valid_id st id cid uid
       = (json 404 (Msg "Comment does not exist"), st))
  /\ (forall l1 c l2,
        Post.comments p = l1 ++ c :: l2 -> Comment.id c = cid ->
        cid ∉ map Comment.id l1 ->
        (Comment.user c <> uid ->
           deleteComment valid_id st id cid uid
             = (json 401 (Msg "User not authorized"), st))
        /\ (Comment.user c = uid ->
           exists p' st',
             deleteComment valid_id st id cid uid
               = (json 200 (Msg "Comment deleted"), st')
             /\ st' = Store.save_post id (Post.set_comments (l1 ++ l2) p) st
             /\ Store.posts st' !! id = Some p'
             /\ Post.comments p' = l1 ++ l2
             /\ Post.likes p' = Post.likes p
             /\ Post.text p' = Post.text p
             /\ Post.name p' = Post.name p
             /\ Post.avatar p' = Post.avatar p
             /\ Post.user p' = Post.user p
             /\ Post.ispublic p' = Post.ispublic p
             /\ Post.date p' = Post.date p
             /\ (forall other,
                   other <> id ->
                   Store.posts st' !! other = Store.posts st !! other)
             /\ Store.users st' = Store.users st
             /\ Store.profiles st' = Store.profiles st)).
Proof.
  intros Hid Hp. split.
  - intros Hno. unfold deleteComment. load_document Hid Hp.
    rewrite findIndex_absent by (by apply absent_key).
    by rewrite get_minus_one.
  - intros l1 c l2 Hcs Hc Hl1.
    assert (Arr.findIndex (fun comment => String.eqb (Comment.id comment) cid)
              (Post.comments p) = Z.of_nat (length l1)) as Hindex.
    { rewrite Hcs. apply findIndex_first; [by apply absent_key|].
      by apply String.eqb_eq. }
    split; intros Hu.
    + unfold deleteComment. load_document Hid Hp.
      rewrite Hindex, Hcs, get_middle.
      apply String.eqb_neq in Hu. by rewrite Hu.
    + exists (Post.set_comments (l1 ++ l2) p),
        (Store.save_post id (Post.set_comments (l1 ++ l2) p) st).
      split.
      { unfold deleteComment. load_document Hid Hp.
        rewrite Hindex, Hcs, get_middle.
        apply String.eqb_eq in Hu. rewrite Hu. cbn [negb].
        destruct (Z.leb_spec 0 (Z.of_nat (length l1))); [|lia].
        by rewrite splice1_middle. }
      split; [done|]. split; [apply lookup_save_post|].
      repeat (split; [done|]). split; [|done].
      intros other Hother. by apply lookup_insert_ne.
Qed.

End PostFacts.

(** ** The profile routes *)

Lemma if_truthy_falsy v : Js.truthy v = false -> if_truthy v = None.
Proof. unfold if_truthy. by intros ->. Qed.

Lemma validation_passes (checks : list (Js.value * string)) :
  Forall (fun c => Validator.isEmpty (fst c) = false) checks ->
  validationResult checks = [].
Proof.
  intros Hall. unfold validationResult.
  by rewrite (filter_absent (fun c => Validator.isEmpty (fst c))).
Qed.

Lemma accepted_checks req :
  accepted req = true ->
  Validator.isEmpty (ProfileReq.status req) = false
  /\ Validator.isEmpty (ProfileReq.skills req) = false
  /\ (Js.truthy (ProfileReq.skills req) = true ->
      exists s, ProfileReq.skills req = Js.Str s).
Proof.
  unfold accepted. intros [[Hstatus Hskills]%andb_prop Hsplit]%andb_prop.
  apply negb_true_iff in Hstatus, Hskills. repeat split; try done.
  intros Ht. rewrite Ht in Hsplit.
  destruct (ProfileReq.skills req); try done. by eexists.
Qed.

(** The object an accepted request builds. *)
Lemma build_accepted uid req :
  accepted req = true ->
  exists f,
    build_profileFields uid req = Return f
    /\ ProfileFields.user f = uid
    /\ (forall k, Key.updated k f = if_truthy (Key.submitted k req))
    /\ ProfileFields.social f = social_fields req
    /\ (forall s, ProfileReq.skills req = Js.Str s ->
          ProfileFields.skills f = Some (map Str.trim (Str.split ","%char s)))
    /\ (Js.truthy (ProfileReq.skills req) = false ->
          ProfileFields.skills f = None).
Proof.
  intros (_ & Hskills & Hstr)%accepted_checks.
  unfold build_profileFields, skills_field.
  destruct (Js.truthy (ProfileReq.skills req)) eqn:Ht.
  - destruct (Hstr eq_refl) as [s Hs]. rewrite Hs in *.
    eexists. split; [reflexivity|]. cbn.
    repeat split; try done; [by intros []|congruence].
  - eexists. split; [reflexivity|]. cbn.
    repeat split; try done; [by intros []|].
    intros s Hs. rewrite Hs in *. simpl in *.
    destruct (String.eqb s EmptyString); simplify_eq.
Qed.

Lemma stored_after_set k f p :
  Key.stored k (ProfileFields.set f p)
    = ProfileFields.set_key (Key.updated k f) (Key.stored k p).
Proof. by destruct k. Qed.

Lemma link_social_fields k req :
  Key.link k (social_fields req) = if_truthy (Key.submitted_social k req).
Proof. by destruct k. Qed.

Lemma save_profile_twice uid p q st :
  Store.save_profile uid q (Store.save_profile uid p st)
    = Store.save_profile uid q st.
Proof.
  destruct st as [us pr ps].
  unfold Store.save_profile, Store.set_profiles; simpl.
  by rewrite insert_insert_eq.
Qed.

Lemma lookup_save_profile uid p st :
  Store.profiles (Store.save_profile uid p st) !! uid = Some p.
Proof. apply lookup_insert_eq. Qed.

Section ProfileFacts.

Variable valid_id : string -> bool.

(** [POST api/profile] for a user who has a profile. *)
Lemma upsertProfile_update st uid req p :
  valid_id uid = true -> Store.profiles st !! uid = Some p ->
  accepted req = true ->
  exists f,
    build_profileFields uid req = Return f
    /\ upsertProfile valid_id st uid req
       = Return (json 200 (ProfileJson (ProfileFields.set f p)),
                 Store.save_profile uid (ProfileFields.set f p) st).
Proof.
  intros Hid Hp Hreq.
  destruct (build_accepted uid req Hreq) as (f & Hf & _).
  exists f. split; [done|].
  destruct (accepted_checks req Hreq) as (Hstatus & Hskills & _).
  unfold upsertProfile. rewrite validation_passes by (by repeat constructor).
  cbn [bool_decide decide_rel negb]. rewrite Hf.
  unfold findOne. cbn [mbind throwing_bind]. by load_document Hid Hp.
Qed.

(** C3, amended: on an existing profile an accepted request replaces every
    top-level key it holds a truthy value for and leaves the other top-level
    keys, the experience and the education entries as stored; the social
    object is replaced as a whole, so a link the request does not hold is
    gone.  After two requests a top-level key has the second request's value,
    else the first's, else the stored one, and the links are those of the
    second request. *)
Theorem upsertProfile_merge st uid req1 req2 p :
  valid_id uid = true -> Store.profiles st !! uid = Some p ->
  accepted req1 = true -> accepted req2 = true ->
  exists p1 p2,
    upsertProfile valid_id st uid req1
      = Return (json 200 (ProfileJson p1), Store.save_profile uid p1 st)
    /\ upsertProfile valid_id (Store.save_profile uid p1 st) uid req2
      = Return (json 200 (ProfileJson p2), Store.save_profile uid p2 st)
    /\ (forall k,
          Key.stored k p1
            = if Js.truthy (Key.submitted k req1)
              then Some (Key.submitted k req1) else Key.stored k p)
    /\ (forall s, ProfileReq.skills req1 = Js.Str s ->
          Profile.skills p1 = Some (map Str.trim (Str.split ","%char s)))
    /\ (Js.truthy (ProfileReq.skills req1) = false ->
          Profile.skills p1 = Profile.skills p)
    /\ (forall k,
          Key.link k (Profile.social p1)
            = if Js.truthy (Key.submitted_social k req1)
              then Some (Key.submitted_social k req1) else None)
    /\ Profile.experience p1 = Profile.experience p
    /\ Profile.education p1 = Profile.education p
    /\ (forall k,
          Key.stored k p2
            = if Js.truthy (Key.submitted k req2)
              then Some (Key.submitted k req2)
              else if Js.truthy (Key.submitted k req1)
                   then Some (Key.submitted k req1) else Key.stored k p)
    /\ (forall k,
          Key.link k (Profile.social p2)
            = if Js.truthy (Key.submitted_social k req2)
              then Some (Key.submitted_social k req2) else None).
Proof.
  intros Hid Hp Hreq1 Hreq2.
  destruct (upsertProfile_update st uid req1 p Hid Hp Hreq1)
    as (f1 & Hf1 & Hrun1).
  destruct (upsertProfile_update
              (Store.save_profile uid (ProfileFields.set f1 p) st)
              uid req2 (ProfileFields.set f1 p) Hid
              (lookup_save_profile _ _ _) Hreq2)
    as (f2 & Hf2 & Hrun2).
  rewrite save_profile_twice in Hrun2.
  destruct (build_accepted uid req1 Hreq1)
    as (f1' & Hf1' & _ & Htop1 & Hsoc1 & Hstr1 & Hfalsy1).
  destruct (build_accepted uid req2 Hreq2)
    as (f2' & Hf2' & _ & Htop2 & Hsoc2 & _).
  assert (f1' = f1) as -> by congruence.
  assert (f2' = f2) as -> by congruence.
  exists (ProfileFields.set f1 p),
    (ProfileFields.set f2 (ProfileFields.set f1 p)).
  repeat split; try done.
  - intros k. rewrite stored_after_set, Htop1. unfold if_truthy.
    by destruct (Js.truthy (Key.submitted k req1)).
  - intros s Hs. cbn. by rewrite (Hstr1 s Hs).
  - intros Hs. cbn. by rewrite (Hfalsy1 Hs).
  - intros k. cbn [ProfileFields.set Profile.social].
    by rewrite Hsoc1, link_social_fields.
  - intros k. rewrite !stored_after_set, Htop1, Htop2. unfold if_truthy.
    by destruct (Js.truthy (Key.submitted k req2)),
                (Js.truthy (Key.submitted k req1)).
  - intros k. cbn [ProfileFields.set Profile.social].
    by rewrite Hsoc2, link_social_fields.
Qed.

(** C8: when the user has no profile, [addExperience] with an entry that
    passes the checks answers with the plain 500 response and writes
    nothing; when the user has a profile, the entry becomes the first of its
    experience entries and the updated profile is the answer. *)
Theorem addExperience_cases st uid req newId :
  valid_id uid = true ->
  Validator.isEmpty (ExperienceReq.title req) = false ->
  Validator.isEmpty (ExperienceReq.company req) = false ->
  Validator.isEmpty (ExperienceReq.from req) = false ->
  (Store.profiles st !! uid = None ->
     addExperience valid_id st uid req newId = (send 500 "Server Error", st))
  /\ (forall p,
        Store.profiles st !! uid = Some p ->
        exists e rest,
          addExperience valid_id st uid req newId
            = (json 200 (ProfileJson (Profile.set_experience (e :: rest) p)),
               Store.save_profile uid (Profile.set_experience (e :: rest) p) st)
          /\ rest = Profile.experience p
          /\ Experience.id e = newId
          /\ Experience.title e = ExperienceReq.title req
          /\ Experience.company e = ExperienceReq.company req
          /\ Experience.location e = ExperienceReq.location req
          /\ Experience.from e = ExperienceReq.from req
          /\ Experience.to e = ExperienceReq.to req
          /\ Experience.current e = ExperienceReq.current req
          /\ Experience.description e = ExperienceReq.description req).
Proof.
  intros Hid Htitle Hcompany Hfrom.
  split; [intros Hp|intros p Hp]; unfold addExperience;
    rewrite validation_passes by (by repeat constructor);
    cbn [bool_decide decide_rel negb]; unfold findOne; load_document Hid Hp.
  - done.
  - eexists _, _. split; [reflexivity|]. by repeat split.
Qed.

(** C9: for a user with a profile, [removeExperience] and [removeEducation]
    with an id that no entry has answer with the profile as stored and write
    nothing. *)
Theorem remove_unknown_entry st uid entry_id p :
  valid_id uid = true -> Store.profiles st !! uid = Some p ->
  (entry_id ∉ map Experience.id (Profile.experience p) ->
     removeExperience valid_id st uid entry_id = (json 200 (ProfileJson p), st))
  /\ (entry_id ∉ map Education.id (Profile.education p) ->
     removeEducation valid_id st uid entry_id = (json 200 (ProfileJson p), st)).
Proof.
  intros Hid Hp.
  split; intros Hno; [unfold removeExperience|unfold removeEducation];
    unfold findOne; load_document Hid Hp; unfold Arr.indexOf;
    rewrite findIndex_absent by (by apply absent_key_sym); done.
Qed.

(** A falsy value and a missing key build the same [profileFields]. *)
Lemma build_submit_falsy uid req v k :
  Js.truthy v = false ->
  build_profileFields uid (Key.submit k v req)
    = build_profileFields uid (Key.submit k Js.Undefined req).
Proof.
  intros Hv. unfold build_profileFields.
  destruct k; cbn; repeat (case_bool_decide; try done);
    by rewrite ?(if_truthy_falsy v Hv).
Qed.

Lemma build_submit_social_falsy uid req v k :
  Js.truthy v = false ->
  build_profileFields uid (Key.submit_social k v req)
    = build_profileFields uid (Key.submit_social k Js.Undefined req).
Proof.
  intros Hv. unfold build_profileFields, social_fields.
  destruct k; cbn; repeat (case_bool_decide; try done);
    by rewrite ?(if_truthy_falsy v Hv).
Qed.

(** The steps of [POST api/profile] after the object is built. *)
Lemma upsertProfile_unfold st uid req :
  upsertProfile valid_id st uid req
  = let errors :=
      validationResult [(ProfileReq.status req, "Status is required");
                        (ProfileReq.skills req, "Skills is required")] in
    if negb (bool_decide (errors = []))
    then Return (json 400 (Errors errors), st)
    else
      match build_profileFields uid req with
      | Throw e => Throw e
      | Return f =>
          match findOne valid_id (Store.profiles st) uid with
          | Throw _ => Return (server_error, st)
          | Return (Some p) =>
              Return (json 200 (ProfileJson (ProfileFields.set f p)),
                      Store.save_profile uid (ProfileFields.set f p) st)
          | Return None =>
              Return (json 200 (ProfileJson (ProfileFields.new f)),
                      Store.save_profile uid (ProfileFields.new f) st)
          end
      end.
Proof.
  unfold upsertProfile. cbv zeta.
  destruct (negb _); [done|].
  destruct (build_profileFields uid req) as [e|f]; [done|].
  cbn [mbind throwing_bind].
  by destruct (findOne valid_id (Store.profiles st) uid) as [e|[p|]].
Qed.

(** C10, amended: a falsy value under an optional key is handled as a
    missing key, and the key is left out of the update.  For a top-level key
    the stored value stays; a link of the social object does not stay,
    since the social object is replaced as a whole. *)
Theorem falsy_optional_field st uid req v :
  Js.truthy v = false ->
  (forall k, k <> Key.status ->
     upsertProfile valid_id st uid (Key.submit k v req)
       = upsertProfile valid_id st uid (Key.submit k Js.Undefined req))
  /\ (forall k,
     upsertProfile valid_id st uid (Key.submit_social k v req)
       = upsertProfile valid_id st uid (Key.submit_social k Js.Undefined req))
  /\ (forall k f,
     build_profileFields uid (Key.submit k v req) = Return f ->
     Key.updated k f = None)
  /\ (forall k f,
     build_profileFields uid (Key.submit_social k v req) = Return f ->
     Key.link k (ProfileFields.social f) = None)
  /\ (forall k p p' st',
     Store.profiles st !! uid = Some p ->
     upsertProfile valid_id st uid (Key.submit k v req)
       = Return (json 200 (ProfileJson p'), st') ->
     Key.stored k p' = Key.stored k p)
  /\ (forall k p p' st',
     Store.profiles st !! uid = Some p ->
     upsertProfile valid_id st uid (Key.submit_social k v req)
       = Return (json 200 (ProfileJson p'), st') ->
     Key.link k (Profile.social p') = None).
Proof.
  intros Hv.
  assert (forall k f,
    build_profileFields uid (Key.submit k v req) = Return f ->
    Key.updated k f = None) as Htop.
  { intros k f. unfold build_profileFields.
    destruct (skills_field _) as [e|sk]; [done|]. cbn [mbind throwing_bind].
    intros [= <-]. destruct k; cbn; case_bool_decide; try done;
      by apply if_truthy_falsy. }
  assert (forall k f,
    build_profileFields uid (Key.submit_social k v req) = Return f ->
    Key.link k (ProfileFields.social f) = None) as Hsoc.
  { intros k f. unfold build_profileFields.
    destruct (skills_field _) as [e|sk]; [done|]. cbn [mbind throwing_bind].
    intros [= <-]. destruct k; cbn; case_bool_decide; try done;
      by apply if_truthy_falsy. }
  repeat split; try done.
  - intros k Hk. rewrite !upsertProfile_unfold.
    rewrite (build_submit_falsy uid req v k Hv).
    destruct k; cbn; repeat (case_bool_decide; try done).
  - intros k. rewrite !upsertProfile_unfold.
    rewrite (build_submit_social_falsy uid req v k Hv).
    destruct k; cbn; repeat (case_bool_decide; try done).
  - intros k p p' st' Hp. rewrite upsertProfile_unfold. cbv zeta.
    destruct (negb _); [done|].
    destruct (build_profileFields _ _) as [e|f] eqn:Hf; [done|].
    unfold findOne, findById. destruct (valid_id uid); [|done].
    rewrite Hp. intros [= <- _].
    by rewrite stored_after_set, (Htop k f Hf).
  - intros k p p' st' Hp. rewrite upsertProfile_unfold. cbv zeta.
    destruct (negb _); [done|].
    destruct (build_profileFields _ _) as [e|f] eqn:Hf; [done|].
    unfold findOne, findById. destruct (valid_id uid); [|done].
    rewrite Hp. intros [= <- _].
    cbn [ProfileFields.set Profile.social]. by apply Hsoc.
Qed.

End ProfileFacts.

(** ** The handlers on the sample store *)

Lemma getPost_unresolved_server_error_witness :
  getPost Sample.objectid Sample.store Sample.unknown_id
    = send 500 "Server Error"
  /\ getPost Sample.objectid Sample.store Sample.unknown_id
    <> json 404 (Errors [ERR_NOTFOUND]).
Proof.
  apply getPost_unresolved_server_error; vm_compute; reflexivity.
Defined.

Lemma createPost_ispublic_witness :
  exists p,
    createPost Sample.objectid Sample.store Sample.bob
        {| PostReq.text := Js.Str "hi"; PostReq.ispublic := Js.Str "false" |}
        "5d7a51f05d2c12c7449be0a3" 1568297600
      = (json 200 (PostJson p),
         Store.save_post "5d7a51f05d2c12c7449be0a3" p Sample.store)
    /\ Post.ispublic p = true.
Proof.
  destruct (createPost_ispublic Sample.objectid Sample.store Sample.bob
              {| User.name := "Bob"; User.avatar := "b.png" |}
              {| PostReq.text := Js.Str "hi";
                 PostReq.ispublic := Js.Str "false" |}
              "5d7a51f05d2c12c7449be0a3" 1568297600)
    as (p & Hrun & _ & _ & _ & Hstr & _); [vm_compute; reflexivity ..|].
  exists p. split; [exact Hrun|]. apply Hstr. reflexivity.
Defined.

Lemma like_then_unlike_witness :
  exists st1,
    likePost Sample.objectid Sample.store Sample.hello_id Sample.carol
      = (json 200 (LikesJson [Sample.like_of Sample.carol;
                              Sample.like_of Sample.bob]), st1)
    /\ unlikePost Sample.objectid st1 Sample.hello_id Sample.carol
      = (json 200 (LikesJson [Sample.like_of Sample.bob]), Sample.store).
Proof.
  apply (like_then_unlike Sample.objectid Sample.store Sample.hello_id
           Sample.carol Sample.hello);
    [vm_compute; reflexivity .. | by_evaluation].
Defined.

Lemma like_unlike_bad_request_witness :
  likePost Sample.objectid Sample.store Sample.hello_id Sample.bob
    = (json 400 (Msg "Post already liked"), Sample.store)
  /\ unlikePost Sample.objectid Sample.store Sample.hello_id Sample.carol
    = (json 400 (Msg "Post was never liked"), Sample.store).
Proof.
  split.
  - apply (like_unlike_bad_request Sample.objectid Sample.store
             Sample.hello_id Sample.bob Sample.hello);
      [vm_compute; reflexivity .. | by_evaluation].
  - apply (like_unlike_bad_request Sample.objectid Sample.store
             Sample.hello_id Sample.carol Sample.hello);
      [vm_compute; reflexivity .. | by_evaluation].
Defined.

Lemma deletePost_cases_witness :
  deletePost Sample.objectid Sample.store Sample.unknown_id Sample.alice
    = (json 404 (Errors ["Post not found"]), Sample.store)
  /\ deletePost Sample.objectid Sample.store Sample.hello_id Sample.bob
    = (json 401 (Errors ["User unauthorized to delete post"]), Sample.store)
  /\ deletePost Sample.objectid Sample.store Sample.secret_id Sample.alice
    = (json 200 (Msg "Post removed"),
       Store.remove_post Sample.secret_id Sample.store).
Proof.
  split; [|split].
  - destruct (deletePost_cases Sample.objectid Sample.store Sample.unknown_id
                Sample.alice) as [Hmissing _].
    apply Hmissing. right. vm_compute; reflexivity.
  - destruct (deletePost_cases Sample.objectid Sample.store Sample.hello_id
                Sample.bob) as [_ Hfound].
    destruct (Hfound Sample.hello) as [Hother _];
      [vm_compute; reflexivity ..|].
    apply Hother. by_evaluation.
  - destruct (deletePost_cases Sample.objectid Sample.store Sample.secret_id
                Sample.alice) as [_ Hfound].
    destruct (Hfound Sample.secret) as (_ & Howner & _);
      [vm_compute; reflexivity ..|].
    apply Howner. reflexivity.
Defined.

Lemma deleteComment_cases_witness :
  deleteComment Sample.objectid Sample.store Sample.hello_id
      "5d7a52aa5d2c12c7449be0cf" Sample.alice
    = (json 404 (Msg "Comment does not exist"), Sample.store)
  /\ deleteComment Sample.objectid Sample.store Sample.hello_id
      (Comment.id Sample.comment2) Sample.bob
    = (json 401 (Msg "User not authorized"), Sample.store)
  /\ exists p' st',
      deleteComment Sample.objectid Sample.store Sample.hello_id
          (Comment.id Sample.comment2) Sample.alice
        = (json 200 (Msg "Comment deleted"), st')
      /\ Store.posts st' !! Sample.hello_id = Some p'
      /\ Post.comments p' = [Sample.comment1; Sample.comment3]
      /\ Post.likes p' = [Sample.like_of Sample.bob]
      /\ Store.posts st' !! Sample.secret_id = Some Sample.secret.
Proof.
  destruct (deleteComment_cases Sample.objectid Sample.store Sample.hello_id
              "5d7a52aa5d2c12c7449be0cf" Sample.alice Sample.hello)
    as [Hmissing _]; [vm_compute; reflexivity ..|].
  destruct (deleteComment_cases Sample.objectid Sample.store Sample.hello_id
              (Comment.id Sample.comment2) Sample.bob Sample.hello)
    as [_ Hbob]; [vm_compute; reflexivity ..|].
  destruct (Hbob [Sample.comment1] Sample.comment2 [Sample.comment3])
    as [Hother _]; [reflexivity | reflexivity | by_evaluation |].
  destruct (deleteComment_cases Sample.objectid Sample.store Sample.hello_id
              (Comment.id Sample.comment2) Sample.alice Sample.hello)
    as [_ Halice]; [vm_compute; reflexivity ..|].
  destruct (Halice [Sample.comment1] Sample.comment2 [Sample.comment3])
    as [_ Hauthor]; [reflexivity | reflexivity | by_evaluation |].
  destruct (Hauthor eq_refl)
    as (p' & st' & Hrun & _ & Hstored & Hcomments & Hlikes & _ & _ & _ & _
        & _ & _ & Hothers & _).
  split; [|split].
  - apply Hmissing. by_evaluation.
  - apply Hother. by_evaluation.
  - exists p', st'. split; [exact Hrun|]. split; [exact Hstored|].
    split; [exact Hcomments|]. split; [exact Hlikes|].
    rewrite (Hothers Sample.secret_id) by by_evaluation.
    vm_compute; reflexivity.
Defined.

(** C3, as stated, fails: Alice's stored twitter link is gone after an
    update whose body has a youtube link and no twitter key. *)
Lemma upsertProfile_clears_absent_link :
  Store.profiles Sample.store !! Sample.alice = Some Sample.alice_profile
  /\ Key.link Key.twitter (Profile.social Sample.alice_profile)
     = Some (Js.Str "https://twitter.com/alice")
  /\ Key.submitted_social Key.twitter Sample.youtube_only = Js.Undefined
  /\ exists p' st',
       upsertProfile Sample.objectid Sample.store Sample.alice
           Sample.youtube_only
         = Return (json 200 (ProfileJson p'), st')
       /\ Key.link Key.twitter (Profile.social p') = None
       /\ Key.link Key.twitter (Profile.social p')
          <> Key.link Key.twitter (Profile.social Sample.alice_profile).
Proof.
  split; [vm_compute; reflexivity|].
  split; [reflexivity|]. split; [reflexivity|].
  eexists _, _. split; [vm_compute; reflexivity|]. by split.
Qed.

Lemma upsertProfile_merge_witness :
  exists p1 p2,
    upsertProfile Sample.objectid Sample.store Sample.alice Sample.company_only
      = Return (json 200 (ProfileJson p1),
                Store.save_profile Sample.alice p1 Sample.store)
    /\ upsertProfile Sample.objectid
         (Store.save_profile Sample.alice p1 Sample.store) Sample.alice
         Sample.youtube_only
      = Return (json 200 (ProfileJson p2),
                Store.save_profile Sample.alice p2 Sample.store)
    /\ Key.stored Key.company p2 = Some (Js.Str "Initech")
    /\ Key.stored Key.location p2 = Some (Js.Str "Boston")
    /\ Key.link Key.youtube (Profile.social p2)
       = Some (Js.Str "https://youtube.com/alice")
    /\ Key.link Key.twitter (Profile.social p2) = None.
Proof.
  destruct (upsertProfile_merge Sample.objectid Sample.store Sample.alice
              Sample.company_only Sample.youtube_only Sample.alice_profile)
    as (p1 & p2 & Hrun1 & Hrun2 & _ & _ & _ & _ & _ & _ & Htop & Hlinks).
  - vm_compute; reflexivity.
  - vm_compute; reflexivity.
  - reflexivity.
  - reflexivity.
  - exists p1, p2. repeat split; [exact Hrun1|exact Hrun2|..].
    + rewrite Htop. reflexivity.
    + rewrite Htop. reflexivity.
    + rewrite Hlinks. reflexivity.
    + rewrite Hlinks. reflexivity.
Defined.

Lemma addExperience_cases_witness :
  addExperience Sample.objectid Sample.store Sample.bob Sample.new_job
      "5d7a53005d2c12c7449be0e2"
    = (send 500 "Server Error", Sample.store)
  /\ exists e,
      fst (addExperience Sample.objectid Sample.store Sample.alice
             Sample.new_job "5d7a53005d2c12c7449be0e2")
        = json 200 (ProfileJson
            (Profile.set_experience [e; Sample.job] Sample.alice_profile))
      /\ Experience.title e = Js.Str "Lead".
Proof.
  destruct (addExperience_cases Sample.objectid Sample.store Sample.bob
              Sample.new_job "5d7a53005d2c12c7449be0e2")
    as [Hnone _]; [vm_compute; reflexivity ..|].
  destruct (addExperience_cases Sample.objectid Sample.store Sample.alice
              Sample.new_job "5d7a53005d2c12c7449be0e2")
    as [_ Hsome]; [vm_compute; reflexivity ..|].
  destruct (Hsome Sample.alice_profile) as (e & rest & Hrun & -> & _ & Ht & _);
    [vm_compute; reflexivity|].
  split.
  - apply Hnone. vm_compute; reflexivity.
  - exists e. rewrite Hrun. split; [reflexivity|exact Ht].
Defined.

Lemma remove_unknown_entry_witness :
  removeExperience Sample.objectid Sample.store Sample.alice
      "5d7a53005d2c12c7449be0ee"
    = (json 200 (ProfileJson Sample.alice_profile), Sample.store)
  /\ removeEducation Sample.objectid Sample.store Sample.alice
      "5d7a53005d2c12c7449be0ee"
    = (json 200 (ProfileJson Sample.alice_profile), Sample.store).
Proof.
  destruct (remove_unknown_entry Sample.objectid Sample.store Sample.alice
              "5d7a53005d2c12c7449be0ee" Sample.alice_profile)
    as [Hexp Hedu]; [vm_compute; reflexivity ..|].
  split; [apply Hexp|apply Hedu]; by_evaluation.
Defined.

(** C10, as stated, fails: an empty twitter link in the body does not keep
    Alice's stored twitter link. *)
Lemma empty_link_clears_stored_link :
  Key.submitted_social Key.twitter Sample.empty_twitter = Js.Str EmptyString
  /\ Js.truthy (Js.Str EmptyString) = false
  /\ Store.profiles Sample.store !! Sample.alice = Some Sample.alice_profile
  /\ Key.link Key.twitter (Profile.social Sample.alice_profile)
     = Some (Js.Str "https://twitter.com/alice")
  /\ exists p' st',
       upsertProfile Sample.objectid Sample.store Sample.alice
           Sample.empty_twitter
         = Return (json 200 (ProfileJson p'), st')
       /\ Store.profiles st' !! Sample.alice = Some p'
       /\ Key.link Key.twitter (Profile.social p') = None.
Proof.
  split; [reflexivity|]. split; [reflexivity|].
  split; [vm_compute; reflexivity|]. split; [reflexivity|].
  eexists _, _. split; [vm_compute; reflexivity|].
  split; vm_compute; reflexivity.
Qed.

Lemma falsy_optional_field_witness :
  upsertProfile Sample.objectid Sample.store Sample.alice
      (Key.submit Key.location (Js.Str EmptyString) Sample.required_only)
    = upsertProfile Sample.objectid Sample.store Sample.alice
        (Key.submit Key.location Js.Undefined Sample.required_only)
  /\ upsertProfile Sample.objectid Sample.store Sample.alice
       (Key.submit_social Key.twitter (Js.Str EmptyString) Sample.required_only)
     = upsertProfile Sample.objectid Sample.store Sample.alice
         (Key.submit_social Key.twitter Js.Undefined Sample.required_only)
  /\ forall p' st',
       upsertProfile Sample.objectid Sample.store Sample.alice
           (Key.submit Key.location (Js.Str EmptyString) Sample.required_only)
         = Return (json 200 (ProfileJson p'), st') ->
       Key.stored Key.location p' = Some (Js.Str "Boston").
Proof.
  destruct (falsy_optional_field Sample.objectid Sample.store Sample.alice
              Sample.required_only (Js.Str EmptyString))
    as (Htop & Hsocial & _ & _ & Hkept & _); [reflexivity|].
  split; [|split].
  - apply Htop. discriminate.
  - apply Hsocial.
  - intros p' st' Hrun.
    apply (Hkept Key.location Sample.alice_profile p' st');
      [vm_compute; reflexivity|exact Hrun].
Defined.

(** * Further properties *)

(** ** Posts: what is read *)

Section PostReads.

Variable valid_id : string -> bool.

(** X1: [GET api/posts/:id] never answers with a private post: a post it
    answers with is the public post stored under the id. *)
Theorem getPost_only_public st id p :
  getPost valid_id st id = json 200 (PostJson p) ->
  valid_id id = true /\ Store.posts st !! id = Some p
  /\ Post.ispublic p = true.
Proof.
  unfold getPost, findById.
  destruct (valid_id id); [|done]. cbn [mbind throwing_bind].
  destruct (Store.posts st !! id) as [q|]; [|done].
  cbn [deref mbind throwing_bind].
  destruct (Post.ispublic q) eqn:Hq; [|done].
  cbn. by intros [= ->].
Qed.

End PostReads.

Lemma find_public_spec posts id p :
  (id, p) ∈ find_public posts <->
  posts !! id = Some p /\ Post.ispublic p = true.
Proof.
  unfold find_public. rewrite list_elem_of_In, filter_In, <- list_elem_of_In.
  rewrite elem_of_map_to_list. simpl. tauto.
Qed.

Lemma newer_first_total : Total newer_first.
Proof. intros a b. unfold newer_first. lia. Qed.

Lemma newer_first_trans : Transitive newer_first.
Proof. intros a b c. unfold newer_first. lia. Qed.

Lemma filter_sublist {A : Type} (f : A -> bool) (l : list A) :
  List.filter f l `sublist_of` l.
Proof.
  induction l as [|x l IH]; simpl; [constructor|].
  destruct (f x); by constructor.
Qed.

(** X2: [GET api/posts] answers with exactly the public posts, each once, and
    no post comes after an older one. *)
Theorem listPublicPosts_public_newest_first st :
  exists l,
    listPublicPosts st = Json l
    /\ (forall id p,
          (id, p) ∈ l <->
          Store.posts st !! id = Some p /\ Post.ispublic p = true)
    /\ NoDup (map fst l)
    /\ (forall i j a b,
          l !! i = Some a -> l !! j = Some b -> (i < j)%nat ->
          Post.date (snd b) <= Post.date (snd a)).
Proof.
  eexists. split; [reflexivity|]. split; [|split].
  - intros id p. rewrite merge_sort_Permutation. apply find_public_spec.
  - rewrite merge_sort_Permutation. unfold find_public.
    eapply sublist_NoDup; [apply (NoDup_fst_map_to_list (Store.posts st))|].
    apply (fmap_sublist fst), filter_sublist.
  - intros i j a b Hi Hj Hlt.
    pose proof (@StronglySorted_merge_sort _ newer_first _
                  newer_first_trans newer_first_total
                  (find_public (Store.posts st))) as Hsorted.
    revert i j a b Hi Hj Hlt.
    induction Hsorted as [|x l _ IH Hx]; intros i j a b Hi Hj Hlt; [done|].
    destruct j as [|j]; [lia|]. destruct i as [|i]; simpl in *.
    + simplify_eq. rewrite Forall_forall in Hx. apply Hx.
      by eapply list_elem_of_lookup_2.
    + apply (IH i j a b Hi Hj). lia.
Qed.

(** ** Posts: what is written *)

Section PostWrites.

Variable valid_id : string -> bool.

(** X3: A post route that does not answer 200 has written nothing. *)
Theorem post_routes_write_only_on_200 st id uid req newId now text cid :
  (status (fst (createPost valid_id st uid req newId now)) <> 200 ->
     snd (createPost valid_id st uid req newId now) = st)
  /\ (status (fst (deletePost valid_id st id uid)) <> 200 ->
     snd (deletePost valid_id st id uid) = st)
  /\ (status (fst (likePost valid_id st id uid)) <> 200 ->
     snd (likePost valid_id st id uid) = st)
  /\ (status (fst (unlikePost valid_id st id uid)) <> 200 ->
     snd (unlikePost valid_id st id uid) = st)
  /\ (status (fst (addComment valid_id st id uid text newId)) <> 200 ->
     snd (addComment valid_id st id uid text newId) = st)
  /\ (status (fst (deleteComment valid_id st id cid uid)) <> 200 ->
     snd (deleteComment valid_id st id cid uid) = st).
Proof.
  repeat split.
  - unfold createPost, findById. handler_paths; congruence.
  - unfold deletePost, findById. handler_paths; congruence.
  - unfold likePost, findById. handler_paths; congruence.
  - unfold unlikePost, findById. handler_paths; congruence.
  - unfold addComment, findById. handler_paths; congruence.
  - unfold deleteComment, findById. handler_paths; congruence.
Qed.

End PostWrites.

(** ** Posts: likes *)



Lemma splice1_sublist {A : Type} (i : Z) (l : list A) :
  Arr.splice1 i l `sublist_of` l.
Proof. unfold Arr.splice1. apply sublist_delete. Qed.

(** The first element with a key splits the list. *)
Lemma first_with_key {A : Type} (key : A -> string) (k : string) (l : list A) :
  k ∈ map key l ->
  exists l1 x l2, l = l1 ++ x :: l2 /\ key x = k /\ k ∉ map key l1.
Proof.
  induction l as [|y l IH]; simpl; [by intros ?%elem_of_nil|].
  intros Hin. destruct (decide (key y = k)) as [Hy|Hy].
  - exists [], y, l. repeat split; [done|]. simpl. apply not_elem_of_nil.
  - apply elem_of_cons in Hin as [Hin|Hin]; [congruence|].
    destruct (IH Hin) as (l1 & x & l2 & -> & Hx & Hl1).
    exists (y :: l1), x, l2. repeat split; [done|]. simpl.
    apply not_elem_of_cons. split; [congruence|done].
Qed.

Lemma no_like_absent uid (l : list Like.t) :
  (0 <? Z.of_nat (length (List.filter (liked_by uid) l))) = false ->
  uid ∉ map Like.user l.
Proof.
  intros Hlen Hin. apply list_elem_of_fmap in Hin as (like & -> & Hin).
  pose proof (filter_present (liked_by (Like.user like)) l like Hin
                (String.eqb_refl _)).
  apply Z.ltb_ge in Hlen. lia.
Qed.

Section Likes.

Variable valid_id : string -> bool.

Lemma likePost_liked st id uid p :
  valid_id id = true -> Store.posts st !! id = Some p ->
  Post.ispublic p = true -> uid ∈ map Like.user (Post.likes p) ->
  likePost valid_id st id uid = (json 400 (Msg "Post already liked"), st).
Proof.
  intros Hid Hp Hpub Hlikes.
  unfold likePost. load_document Hid Hp. rewrite Hpub. cbn [negb].
  destruct (0 <? _) eqn:Hlen; [done|]. by apply no_like_absent in Hlen.
Qed.

Lemma likePost_fresh st id uid p :
  valid_id id = true -> Store.posts st !! id = Some p ->
  Post.ispublic p = true -> uid ∉ map Like.user (Post.likes p) ->
  likePost valid_id st id uid
    = (json 200 (LikesJson ({| Like.user := uid |} :: Post.likes p)),
       Store.save_post id
         (Post.set_likes ({| Like.user := uid |} :: Post.likes p) p) st).
Proof.
  intros Hid Hp Hpub Hfresh.
  unfold likePost. load_document Hid Hp. rewrite Hpub. cbn [negb].
  by rewrite (filter_absent (liked_by uid)) by (by apply absent_key).
Qed.

Lemma unlikePost_absent st id uid p :
  valid_id id = true -> Store.posts st !! id = Some p ->
  Post.ispublic p = true -> uid ∉ map Like.user (Post.likes p) ->
  unlikePost valid_id st id uid = (json 400 (Msg "Post was never liked"), st).
Proof.
  intros Hid Hp Hpub Hfresh.
  unfold unlikePost. load_document Hid Hp. rewrite Hpub. cbn [negb].
  by rewrite (filter_absent (liked_by uid)) by (by apply absent_key).
Qed.


(** X5: The posts of the store keep their likes unique under every post
    route. *)
Theorem post_routes_keep_likes_unique st id uid req newId now text cid :
  unique_likes st ->
  unique_likes (snd (createPost valid_id st uid req newId now))
  /\ unique_likes (snd (deletePost valid_id st id uid))
  /\ unique_likes (snd (likePost valid_id st id uid))
  /\ unique_likes (snd (unlikePost valid_id st id uid))
  /\ unique_likes (snd (addComment valid_id st id uid text newId))
  /\ unique_likes (snd (deleteComment valid_id st id cid uid)).
Proof.
  unfold unique_likes. intros Hst.
  assert (forall i p l,
    Store.posts st !! i = Some p -> NoDup (map Like.user l) ->
    map_Forall (fun _ q => NoDup (map Like.user (Post.likes q)))
      (Store.posts (Store.save_post i (Post.set_likes l p) st))) as Hlikes.
  { intros i p l _ Hl. by apply map_Forall_insert_2. }
  assert (forall i p l,
    Store.posts st !! i = Some p ->
    map_Forall (fun _ q => NoDup (map Like.user (Post.likes q)))
      (Store.posts (Store.save_post i (Post.set_comments l p) st)))
    as Hcomments.
  { intros i p l Hp. apply map_Forall_insert_2; [|done].
    apply (Hst i p Hp). }
  repeat split.
  - unfold createPost, findById. handler_paths; try done;
      apply map_Forall_insert_2; try done; simpl; constructor.
  - unfold deletePost, findById. handler_paths; try done.
    by apply map_Forall_delete.
  - unfold likePost, findById. handler_paths; try done; simplify_eq.
    eapply Hlikes; [done|]. unfold Arr.unshift. simpl. constructor.
    + by apply no_like_absent.
    + by eapply Hst.
  - unfold unlikePost, findById. handler_paths; try done; simplify_eq.
    eapply Hlikes; [done|].
    eapply sublist_NoDup; [by eapply Hst|].
    apply (fmap_sublist Like.user), splice1_sublist.
  - unfold addComment, findById. handler_paths; try done; simplify_eq.
    by eapply Hcomments.
  - unfold deleteComment, findById. handler_paths; try done; simplify_eq.
    by eapply Hcomments.
Qed.

(** X6: On a public post a like right after a like by the same user, and, when
    the likes are unique, an unlike right after an unlike, is answered with
    400 and writes nothing. *)
Theorem repeated_like_unlike_rejected st id uid p :
  valid_id id = true -> Store.posts st !! id = Some p ->
  Post.ispublic p = true ->
  likePost valid_id (snd (likePost valid_id st id uid)) id uid
    = (json 400 (Msg "Post already liked"),
       snd (likePost valid_id st id uid))
  /\ (NoDup (map Like.user (Post.likes p)) ->
      unlikePost valid_id (snd (unlikePost valid_id st id uid)) id uid
        = (json 400 (Msg "Post was never liked"),
           snd (unlikePost valid_id st id uid))).
Proof.
  intros Hid Hp Hpub. split.
  - destruct (decide (uid ∈ map Like.user (Post.likes p))) as [Hin|Hout].
    + rewrite (likePost_liked st id uid p) by done.
      by apply (likePost_liked st id uid p).
    + rewrite (likePost_fresh st id uid p) by done.
      eapply likePost_liked; [done|apply lookup_save_post|done|].
      simpl. set_solver.
  - intros Hunique.
    destruct (decide (uid ∈ map Like.user (Post.likes p))) as [Hin|Hout].
    + destruct (first_with_key Like.user uid _ Hin)
        as (l1 & [u] & l2 & Hlikes & Hu & Hl1). simpl in Hu. subst u.
      rewrite (unlikePost_first valid_id st id uid p l1 l2) by done.
      eapply unlikePost_absent; [done|apply lookup_save_post|done|].
      simpl. rewrite Hlikes, map_app in Hunique. simpl in Hunique.
      apply NoDup_app in Hunique as (_ & _ & Hl2).
      apply NoDup_cons in Hl2 as [Hl2 _].
      rewrite map_app. intros [?|?]%elem_of_app; done.
    + rewrite (unlikePost_absent st id uid p) by done.
      by apply (unlikePost_absent st id uid p).
Qed.

End Likes.

(** ** Posts: comments, creation and removal *)

Lemma set_comments_back l p :
  Post.set_comments (Post.comments p) (Post.set_comments l p) = p.
Proof. by destruct p. Qed.

Lemma findIndex_head {A : Type} (f : A -> bool) x l :
  f x = true -> Arr.findIndex f (x :: l) = 0.
Proof. intros Hx. simpl. by rewrite Hx. Qed.

Lemma get_head {A : Type} (x : A) l : Arr.get (x :: l) 0 = Some x.
Proof. done. Qed.

Lemma validation_passes_one v msg :
  Validator.isEmpty v = false -> validationResult [(v, msg)] = [].
Proof. intros Hv. apply validation_passes. by repeat constructor. Qed.

Section Comments.

Variable valid_id : string -> bool.

(** X7: A private post takes no like, no unlike and no comment: the three
    routes answer 404 and write nothing. *)
Theorem private_post_refused st id uid text newId p :
  valid_id id = true -> Store.posts st !! id = Some p ->
  Post.ispublic p = false ->
  likePost valid_id st id uid = (json 404 (Errors [ERR_NOTFOUND]), st)
  /\ unlikePost valid_id st id uid = (json 404 (Errors [ERR_NOTFOUND]), st)
  /\ (Validator.isEmpty text = false ->
      addComment valid_id st id uid text newId
        = (json 404 (Errors [ERR_NOTFOUND]), st)).
Proof.
  intros Hid Hp Hpriv. split; [|split].
  - unfold likePost. load_document Hid Hp. by rewrite Hpriv.
  - unfold unlikePost. load_document Hid Hp. by rewrite Hpriv.
  - intros Htext. unfold addComment, findById.
    rewrite validation_passes_one, bool_decide_eq_true_2 by done.
    rewrite Hid, Hp. destruct (valid_id uid); [|reflexivity].
    cbn [negb deref mbind throwing_bind]. by rewrite Hpriv.
Qed.

(** X8: [POST api/posts/comment/:id] on a public post: the comment of a user
    who has a user document becomes the first comment, with the user's name
    and avatar, and the answer is the new comment list; a requester without
    a user document gets the plain 500 response and nothing is written. *)
Theorem addComment_cases st id uid text newId p :
  Validator.isEmpty text = false ->
  valid_id id = true -> valid_id uid = true ->
  Store.posts st !! id = Some p -> Post.ispublic p = true ->
  (Store.users st !! uid = None ->
     addComment valid_id st id uid text newId = (server_error, st))
  /\ (forall u,
        Store.users st !! uid = Some u ->
        addComment valid_id st id uid text newId
          = (json 200 (CommentsJson
               ({| Comment.id := newId; Comment.text := text;
                   Comment.name := User.name u;
                   Comment.avatar := User.avatar u;
                   Comment.user := uid |} :: Post.comments p)),
             Store.save_post id
               (Post.set_comments
                  ({| Comment.id := newId; Comment.text := text;
                      Comment.name := User.name u;
                      Comment.avatar := User.avatar u;
                      Comment.user := uid |} :: Post.comments p) p) st)).
Proof.
  intros Htext Hid Huid Hp Hpub.
  split; [intros Hu|intros u Hu]; unfold addComment, findById;
    rewrite validation_passes_one, bool_decide_eq_true_2 by done;
    rewrite Hid, Huid, Hp, Hu; cbn [negb deref mbind throwing_bind];
    by rewrite Hpub.
Qed.

(** X9: A comment that was just added is removed again by its author's
    [deleteComment] with its id, and the store is as before the comment. *)
Theorem addComment_then_deleteComment st id uid text newId p u :
  Validator.isEmpty text = false ->
  valid_id id = true -> valid_id uid = true ->
  Store.posts st !! id = Some p -> Post.ispublic p = true ->
  Store.users st !! uid = Some u ->
  deleteComment valid_id (snd (addComment valid_id st id uid text newId))
      id newId uid
    = (json 200 (Msg "Comment deleted"), st).
Proof.
  intros Htext Hid Huid Hp Hpub Hu.
  unfold addComment, findById.
  rewrite validation_passes_one, bool_decide_eq_true_2 by done.
  rewrite Hid, Huid, Hp, Hu. cbn [negb deref mbind throwing_bind].
  rewrite Hpub. cbn [negb deref mbind throwing_bind mret throwing_ret snd].
  unfold deleteComment. load_document Hid (lookup_save_post id).
  unfold Arr.unshift. cbn [Post.comments Post.set_comments].
  set (c := {| Comment.id := newId; Comment.text := text;
               Comment.name := User.name u; Comment.avatar := User.avatar u;
               Comment.user := uid |}).
  rewrite findIndex_head by apply String.eqb_refl.
  rewrite get_head, splice1_head. subst c. cbn [Comment.user].
  rewrite String.eqb_refl. cbn [negb]. change (0 <=? 0) with true.
  cbn [mret throwing_ret]. rewrite save_post_twice.
  by rewrite set_comments_back, save_post_same.
Qed.


End Comments.

Section PostLifecycle.

Variable valid_id : string -> bool.

Lemma createPost_accepted st uid u req newId now :
  Validator.isEmpty (PostReq.text req) = false ->
  valid_id uid = true -> Store.users st !! uid = Some u ->
  exists p,
    createPost valid_id st uid req newId now
      = (json 200 (PostJson p), Store.save_post newId p st)
    /\ Post.ispublic p
       = negb (bool_decide (PostReq.ispublic req = Js.Bool false))
    /\ Post.text p = PostReq.text req /\ Post.user p = uid
    /\ Post.name p = User.name u /\ Post.avatar p = User.avatar u
    /\ Post.date p = now /\ Post.likes p = [] /\ Post.comments p = [].
Proof.
  intros Htext Hid Hu. unfold createPost. rewrite Htext.
  load_document Hid Hu. eexists. split; [reflexivity|].
  by destruct (PostReq.ispublic req) as [| |[]| |].
Qed.

(** X11: A post that was just created is what [getPost] answers for its id and
    is among the posts [GET api/posts] lists exactly when it is public; a
    post created with the boolean false gets 404 and is not listed. *)
Theorem createPost_then_read st uid u req newId now :
  Validator.isEmpty (PostReq.text req) = false ->
  valid_id uid = true -> valid_id newId = true ->
  Store.users st !! uid = Some u ->
  exists p l,
    createPost valid_id st uid req newId now
      = (json 200 (PostJson p), Store.save_post newId p st)
    /\ listPublicPosts (Store.save_post newId p st) = Json l
    /\ (PostReq.ispublic req = Js.Bool false ->
        getPost valid_id (Store.save_post newId p st) newId
          = json 404 (Errors [ERR_NOTFOUND])
        /\ newId ∉ map fst l)
    /\ (PostReq.ispublic req <> Js.Bool false ->
        getPost valid_id (Store.save_post newId p st) newId
          = json 200 (PostJson p)
        /\ (newId, p) ∈ l).
Proof.
  intros Htext Hid Hnew Hu.
  destruct (createPost_accepted st uid u req newId now Htext Hid Hu)
    as (p & Hrun & Hpub & _).
  exists p. eexists. split; [done|]. split; [reflexivity|].
  rewrite (getPost_found valid_id _ newId p Hnew (lookup_save_post _ _ _)).
  split; intros Hflag.
  - rewrite bool_decide_eq_true_2 in Hpub by done. simpl in Hpub.
    rewrite Hpub. split; [done|].
    intros ([i q] & Hi & Hin)%list_elem_of_fmap. cbn [fst] in Hi. subst i.
    rewrite merge_sort_Permutation in Hin.
    apply find_public_spec in Hin as [Hq Hqpub].
    rewrite lookup_save_post in Hq. congruence.
  - rewrite bool_decide_eq_false_2 in Hpub by done. simpl in Hpub.
    rewrite Hpub. split; [done|].
    rewrite merge_sort_Permutation. apply find_public_spec.
    split; [apply lookup_save_post|done].
Qed.

Lemma deletePost_removed st id uid :
  status (fst (deletePost valid_id st id uid)) = 200 ->
  valid_id id = true
  /\ deletePost valid_id st id uid
     = (json 200 (Msg "Post removed"), Store.remove_post id st).
Proof.
  unfold deletePost, findById. handler_paths; done.
Qed.

(** X12: Once a post is deleted, a second [deletePost] for its id, by anyone,
    answers 404 "Post not found" and the post is not listed. *)
Theorem deletePost_twice st id uid other :
  status (fst (deletePost valid_id st id uid)) = 200 ->
  exists st' l,
    snd (deletePost valid_id st id uid) = st'
    /\ Store.posts st' !! id = None
    /\ deletePost valid_id st' id other
       = (json 404 (Errors ["Post not found"]), st')
    /\ listPublicPosts st' = Json l /\ id ∉ map fst l.
Proof.
  intros [Hid Hrun]%deletePost_removed. rewrite Hrun. cbn [snd].
  eexists _, _. split; [reflexivity|]. split; [apply lookup_remove_post|].
  split; [|split; [reflexivity|]].
  - unfold deletePost, findById. by rewrite Hid, lookup_remove_post.
  - intros ([i q] & Hi & Hin)%list_elem_of_fmap. cbn [fst] in Hi. subst i.
    rewrite merge_sort_Permutation in Hin.
    apply find_public_spec in Hin as [Hq _].
    by rewrite lookup_remove_post in Hq.
Qed.

End PostLifecycle.

(** ** Profiles: skills *)

Section StrFacts.

Local Open Scope string_scope.

Lemma split_nonempty sep s : Str.split sep s <> [].
Proof.
  destruct s as [|c s]; simpl; [done|].
  destruct (Ascii.eqb c sep); [done|]. by destruct (Str.split sep s).
Qed.

(** Joining the pieces with the separator gives the string back. *)
Lemma split_concat sep s :
  String.concat (String sep EmptyString) (Str.split sep s) = s.
Proof.
  induction s as [|c s IH]; simpl; [done|].
  pose proof (split_nonempty sep s) as Hne.
  destruct (Ascii.eqb_spec c sep) as [->|Hc].
  - destruct (Str.split sep s) as [|w ws] eqn:Hs; [done|].
    simpl in *. by rewrite IH.
  - destruct (Str.split sep s) as [|w ws] eqn:Hs; [done|].
    simpl in *. destruct ws; simpl in *; by rewrite <- IH.
Qed.

(** No piece holds the separator. *)
Lemma split_no_sep sep s w :
  w ∈ Str.split sep s -> sep ∉ String.list_ascii_of_string w.
Proof.
  revert w. induction s as [|c s IH]; simpl; intros w Hw.
  - apply list_elem_of_singleton in Hw as ->. apply not_elem_of_nil.
  - destruct (Ascii.eqb_spec c sep) as [->|Hc].
    + apply elem_of_cons in Hw as [->|Hw]; [apply not_elem_of_nil|by apply IH].
    + destruct (Str.split sep s) as [|v vs] eqn:Hs.
      * apply list_elem_of_singleton in Hw as ->. simpl.
        apply not_elem_of_cons. split; [done|apply not_elem_of_nil].
      * apply elem_of_cons in Hw as [->|Hw].
        -- simpl. apply not_elem_of_cons. split; [done|].
           apply IH. by left.
        -- apply IH. by right.
Qed.

(** There is one piece more than there are separators. *)
Lemma split_length sep s :
  length (Str.split sep s)
    = S (length (List.filter (fun c => Ascii.eqb c sep)
                   (String.list_ascii_of_string s))).
Proof.
  induction s as [|c s IH]; simpl; [done|].
  destruct (Ascii.eqb c sep); simpl; [by rewrite IH|].
  destruct (Str.split sep s); simpl in *; congruence.
Qed.

Lemma append_cons c a b : String c a ++ b = String c (a ++ b).
Proof. done. Qed.

Lemma append_empty b : EmptyString ++ b = b.
Proof. done. Qed.

Lemma append_assoc a b c : (a ++ b) ++ c = a ++ (b ++ c).
Proof.
  induction a as [|x a IH]; [done|]. by rewrite !append_cons, IH.
Qed.

Lemma is_space_spec s : Str.is_space s = true <-> s ∈ Str.white_space.
Proof.
  unfold Str.is_space. rewrite existsb_exists. split.
  - intros (x & Hin & ->%String.eqb_eq). by apply list_elem_of_In.
  - intros Hin. exists s. split; [by apply list_elem_of_In|].
    apply String.eqb_refl.
Qed.

(** A white space character is one, two or three bytes. *)
Lemma white_space_shape x :
  x ∈ Str.white_space ->
  (exists a, x = String a EmptyString)
  \/ (exists a b, x = String a (String b EmptyString))
  \/ (exists a b c, x = String a (String b (String c EmptyString))).
Proof.
  intros Hx. vm_compute in Hx.
  repeat (apply elem_of_cons in Hx as [->|Hx]; [by eauto 6|]).
  by apply elem_of_nil in Hx.
Qed.

Lemma white_space_nonempty : EmptyString ∉ Str.white_space.
Proof.
  intros [(a & ?)|[(a & b & ?)|(a & b & c & ?)]]%white_space_shape; done.
Qed.

Lemma trimStart_unfold s :
  Str.trimStart s
  = match s with
    | EmptyString => EmptyString
    | String a r1 =>
        if Str.is_space (String a EmptyString) then Str.trimStart r1
        else
          match r1 with
          | EmptyString => s
          | String b r2 =>
              if Str.is_space (String a (String b EmptyString))
              then Str.trimStart r2
              else
                match r2 with
                | EmptyString => s
                | String c r3 =>
                    if Str.is_space
                         (String a (String b (String c EmptyString)))
                    then Str.trimStart r3
                    else s
                end
          end
    end.
Proof. by destruct s. Qed.

(** What [trimStart] leaves is the end of the string and starts with no
    white space character. *)
Lemma trimStart_spec_bounded n s :
  (String.length s <= n)%nat ->
  (exists a, s = a ++ Str.trimStart s)
  /\ (forall x r, x ∈ Str.white_space -> Str.trimStart s <> x ++ r).
Proof.
  revert s. induction n as [|n IH]; intros s Hlen.
  { destruct s; [|simpl in Hlen; lia]. split; [by exists EmptyString|].
    intros x r Hx Heq. destruct x; [by apply white_space_nonempty|done]. }
  assert (forall x r,
    x ∈ Str.white_space -> s = x ++ r ->
    match s with
    | String a (String b (String c _)) =>
        Str.is_space (String a EmptyString) = true
        \/ Str.is_space (String a (String b EmptyString)) = true
        \/ Str.is_space (String a (String b (String c EmptyString))) = true
    | String a (String b EmptyString) =>
        Str.is_space (String a EmptyString) = true
        \/ Str.is_space (String a (String b EmptyString)) = true
    | String a EmptyString => Str.is_space (String a EmptyString) = true
    | EmptyString => False
    end) as Hprefix.
  { intros x r Hx ->.
    destruct (white_space_shape x Hx)
      as [(a & ->)|[(a & b & ->)|(a & b & c & ->)]];
      apply is_space_spec in Hx; rewrite ?append_cons, ?append_empty.
    - destruct r as [|? [|? ?]]; auto.
    - destruct r as [|? ?]; auto.
    - auto. }
  assert (forall pre r,
    s = pre ++ r -> (String.length r <= n)%nat ->
    (exists a, s = a ++ Str.trimStart r)
    /\ (forall x r', x ∈ Str.white_space -> Str.trimStart r <> x ++ r'))
    as Hrest.
  { intros pre r -> Hr. destruct (IH r Hr) as [(a & Ha) Hno].
    split; [|done]. exists (pre ++ a). by rewrite append_assoc, <- Ha. }
  assert ((exists a, s = a ++ s)
          /\ ((forall x r, x ∈ Str.white_space -> s <> x ++ r) ->
              forall x r, x ∈ Str.white_space -> s <> x ++ r))
    as [Hself _] by (split; [by exists EmptyString|done]).
  rewrite (trimStart_unfold s).
  destruct s as [|a r1]; [split; [done|]; intros x r Hx Heq;
                          by apply (Hprefix x r)|].
  destruct (Str.is_space (String a EmptyString)) eqn:Ha.
  { apply (Hrest (String a EmptyString) r1); [done|simpl in *; lia]. }
  destruct r1 as [|b r2].
  { split; [done|]. intros x r Hx Heq.
    pose proof (Hprefix x r Hx Heq). congruence. }
  destruct (Str.is_space (String a (String b EmptyString))) eqn:Hb.
  { apply (Hrest (String a (String b EmptyString)) r2);
      [done|simpl in *; lia]. }
  destruct r2 as [|c r3].
  { split; [done|]. intros x r Hx Heq.
    destruct (Hprefix x r Hx Heq); congruence. }
  destruct (Str.is_space (String a (String b (String c EmptyString))))
    eqn:Hc.
  { apply (Hrest (String a (String b (String c EmptyString))) r3);
      [done|simpl in *; lia]. }
  split; [done|]. intros x r Hx Heq.
  destruct (Hprefix x r Hx Heq) as [?|[?|?]]; congruence.
Qed.

Lemma trimStart_spec s :
  (exists a, s = a ++ Str.trimStart s)
  /\ (forall x r, x ∈ Str.white_space -> Str.trimStart s <> x ++ r).
Proof. by apply (trimStart_spec_bounded (String.length s)). Qed.

(** What [trimEnd] leaves is the start of the string and ends with no white
    space character. *)
Lemma trimEnd_spec s :
  (exists b, s = Str.trimEnd s ++ b)
  /\ (forall x r, x ∈ Str.white_space -> Str.trimEnd s <> r ++ x).
Proof.
  assert (forall x r, x ∈ Str.white_space -> EmptyString <> r ++ x) as Hempty.
  { intros x r Hx Heq. destruct r; [|done]. rewrite append_empty in Heq.
    subst x. by apply white_space_nonempty. }
  induction s as [|c s [(b & Hb) Hno]]; cbn [Str.trimEnd]; cbv zeta.
  - split; [by exists EmptyString|done].
  - destruct (Str.is_space (String c (Str.trimEnd s))) eqn:Hc.
    + split; [|done]. by eexists.
    + split; [exists b; by rewrite append_cons, <- Hb|].
      intros x r Hx Heq. destruct r as [|c' r].
      * rewrite append_empty in Heq. subst x.
        apply is_space_spec in Hx. congruence.
      * rewrite append_cons in Heq. injection Heq as _ Heq.
        by apply (Hno x r).
Qed.

(** [s.trim()] is a part of [s] that starts and ends with no white space
    character. *)
Lemma trim_spec s :
  (exists a b, s = a ++ Str.trim s ++ b)
  /\ (forall x r, x ∈ Str.white_space -> Str.trim s <> x ++ r)
  /\ (forall x r, x ∈ Str.white_space -> Str.trim s <> r ++ x).
Proof.
  unfold Str.trim.
  destruct (trimStart_spec s) as [(a & Ha) Hstart].
  destruct (trimEnd_spec (Str.trimStart s)) as [(b & Hb) Hend].
  split; [|split; [|done]].
  - exists a, b. by rewrite <- Hb.
  - intros x r Hx Heq. apply (Hstart x (r ++ b) Hx).
    by rewrite Hb at 1; rewrite Heq, append_assoc.
Qed.

End StrFacts.

(** ** Profiles *)



Lemma set_experience_back l p :
  Profile.set_experience (Profile.experience p) (Profile.set_experience l p)
    = p.
Proof. by destruct p. Qed.

Lemma set_education_back l p :
  Profile.set_education (Profile.education p) (Profile.set_education l p) = p.
Proof. by destruct p. Qed.

Lemma save_profile_same uid p st :
  Store.profiles st !! uid = Some p -> Store.save_profile uid p st = st.
Proof.
  intros Hp. destruct st as [us pr ps].
  unfold Store.save_profile, Store.set_profiles. simpl in *.
  by rewrite insert_id.
Qed.

Section ProfileWrites.

Variable valid_id : string -> bool.

(** X13: [POST api/profile] for a user without a profile creates one from the
    keys the body holds a truthy value for, the skills among them, with no
    experience and no education entries, and stores it for the user. *)
Theorem upsertProfile_creates st uid req :
  valid_id uid = true -> Store.profiles st !! uid = None ->
  accepted req = true ->
  exists p,
    upsertProfile valid_id st uid req
      = Return (json 200 (ProfileJson p), Store.save_profile uid p st)
    /\ Store.profiles (Store.save_profile uid p st) !! uid = Some p
    /\ Profile.user p = uid
    /\ (forall k,
          Key.stored k p
            = if Js.truthy (Key.submitted k req)
              then Some (Key.submitted k req) else None)
    /\ (forall s,
          ProfileReq.skills req = Js.Str s ->
          Profile.skills p = Some (map Str.trim (Str.split ","%char s)))
    /\ (Js.truthy (ProfileReq.skills req) = false -> Profile.skills p = None)
    /\ (forall k,
          Key.link k (Profile.social p)
            = if Js.truthy (Key.submitted_social k req)
              then Some (Key.submitted_social k req) else None)
    /\ Profile.experience p = [] /\ Profile.education p = [].
Proof.
  intros Hid Hp Hreq.
  destruct (build_accepted uid req Hreq)
    as (f & Hf & Huser & Htop & Hsoc & Hstr & Hfalsy).
  destruct (accepted_checks req Hreq) as (Hstatus & Hskills & _).
  exists (ProfileFields.new f). rewrite upsertProfile_unfold. cbv zeta.
  rewrite validation_passes by (by repeat constructor).
  rewrite bool_decide_eq_true_2 by done. cbn [negb]. rewrite Hf.
  unfold findOne, findById. rewrite Hid, Hp.
  split; [done|]. split; [apply lookup_save_profile|].
  split; [done|]. split; [|split; [|split; [|split; [|done]]]].
  - intros k. transitivity (Key.updated k f); [by destruct k|].
    by rewrite Htop.
  - intros s Hs. cbn [ProfileFields.new Profile.skills]. by apply Hstr.
  - intros Hs. cbn [ProfileFields.new Profile.skills]. by apply Hfalsy.
  - intros k. cbn [ProfileFields.new Profile.social].
    by rewrite Hsoc, link_social_fields.
Qed.


(** X15: After [POST api/profile] has answered with a profile, [GET
    api/profile/me] answers with that profile and the user's document. *)
Theorem upsertProfile_then_getMe st uid req p st' :
  upsertProfile valid_id st uid req = Return (json 200 (ProfileJson p), st') ->
  getMe valid_id st' uid = Json (p, Store.users st !! uid)
  /\ getProfileByUserId valid_id st' uid = Json (p, Store.users st !! uid).
Proof.
  rewrite upsertProfile_unfold. cbv zeta.
  destruct (negb _); [done|].
  destruct (build_profileFields uid req) as [e|f] eqn:Hf; [done|].
  assert (ProfileFields.user f = uid) as Huser.
  { revert Hf. unfold build_profileFields.
    destruct (skills_field _); [done|]. by intros [= <-]. }
  unfold getMe, getProfileByUserId, findOne, findById.
  destruct (valid_id uid) eqn:Hid; [|done].
  destruct (Store.profiles st !! uid) as [q|]; intros [= <- <-];
    rewrite lookup_save_profile; unfold populate; simpl; by rewrite Huser.
Qed.

End ProfileWrites.

Section Entries.

Variable valid_id : string -> bool.

(** X16: [PUT api/profile/education] with an entry that passes the checks: for a
    user with a profile the entry becomes the first education entry of the
    stored profile, which is otherwise as it was, and the answer is that
    profile; no other profile changes.  For a user without a profile the
    answer is the plain 500 response and nothing is written. *)
Theorem addEducation_cases st uid req newId :
  valid_id uid = true ->
  Validator.isEmpty (EducationReq.school req) = false ->
  Validator.isEmpty (EducationReq.degree req) = false ->
  Validator.isEmpty (EducationReq.fieldofstudy req) = false ->
  Validator.isEmpty (EducationReq.from req) = false ->
  (Store.profiles st !! uid = None ->
     addEducation valid_id st uid req newId = (server_error, st))
  /\ (forall p,
        Store.profiles st !! uid = Some p ->
        exists e p' st',
          addEducation valid_id st uid req newId
            = (json 200 (ProfileJson p'), st')
          /\ Store.profiles st' !! uid = Some p'
          /\ Profile.education p' = e :: Profile.education p
          /\ Profile.experience p' = Profile.experience p
          /\ Profile.user p' = Profile.user p
          /\ (forall k, Key.stored k p' = Key.stored k p)
          /\ Profile.skills p' = Profile.skills p
          /\ Profile.social p' = Profile.social p
          /\ (forall other,
                other <> uid ->
                Store.profiles st' !! other = Store.profiles st !! other)
          /\ Store.users st' = Store.users st
          /\ Store.posts st' = Store.posts st
          /\ Education.id e = newId
          /\ Education.school e = EducationReq.school req
          /\ Education.degree e = EducationReq.degree req
          /\ Education.fieldofstudy e = EducationReq.fieldofstudy req
          /\ Education.location e = EducationReq.location req
          /\ Education.from e = EducationReq.from req
          /\ Education.to e = EducationReq.to req
          /\ Education.current e = EducationReq.current req
          /\ Education.description e = EducationReq.description req).
Proof.
  intros Hid Hschool Hdegree Hfield Hfrom.
  split; [intros Hp|intros p Hp]; unfold addEducation;
    rewrite validation_passes by (by repeat constructor);
    rewrite bool_decide_eq_true_2 by done; cbn [negb];
    unfold findOne; load_document Hid Hp.
  - done.
  - eexists _, _, _. split; [reflexivity|].
    split; [apply lookup_save_profile|].
    repeat (split; [first [done | by intros k; destruct k
                          | intros other Hother; by apply lookup_insert_ne]|]).
    done.
Qed.

(** X17: An experience or education entry that was just added is removed again
    by the remove route with its id, and the store is as before. *)
Theorem add_then_remove_entry st uid p newId exp edu :
  valid_id uid = true -> Store.profiles st !! uid = Some p ->
  (status (fst (addExperience valid_id st uid exp newId)) = 200 ->
     removeExperience valid_id
         (snd (addExperience valid_id st uid exp newId)) uid newId
       = (json 200 (ProfileJson p), st))
  /\ (status (fst (addEducation valid_id st uid edu newId)) = 200 ->
     removeEducation valid_id
         (snd (addEducation valid_id st uid edu newId)) uid newId
       = (json 200 (ProfileJson p), st)).
Proof.
  intros Hid Hp. split.
  - unfold addExperience, findOne. cbv zeta.
    destruct (negb _); [done|]. load_document Hid Hp.
    cbn [mret throwing_ret fst snd]. intros _.
    unfold removeExperience, findOne.
    load_document Hid (lookup_save_profile uid).
    unfold Arr.unshift, Arr.indexOf.
    cbn [Profile.experience Profile.set_experience map Experience.id].
    rewrite findIndex_head by apply String.eqb_refl.
    change (0 <=? 0) with true. cbn [mret throwing_ret].
    rewrite splice1_head, save_profile_twice.
    by rewrite set_experience_back, save_profile_same.
  - unfold addEducation, findOne. cbv zeta.
    destruct (negb _); [done|]. load_document Hid Hp.
    cbn [mret throwing_ret fst snd]. intros _.
    unfold removeEducation, findOne.
    load_document Hid (lookup_save_profile uid).
    unfold Arr.unshift, Arr.indexOf.
    cbn [Profile.education Profile.set_education map Education.id].
    rewrite findIndex_head by apply String.eqb_refl.
    change (0 <=? 0) with true. cbn [mret throwing_ret].
    rewrite splice1_head, save_profile_twice.
    by rewrite set_education_back, save_profile_same.
Qed.

Lemma removeExperience_run st uid entry_id p l1 e l2 :
  valid_id uid = true -> Store.profiles st !! uid = Some p ->
  Profile.experience p = l1 ++ e :: l2 -> Experience.id e = entry_id ->
  entry_id ∉ map Experience.id l1 ->
  removeExperience valid_id st uid entry_id
    = (json 200 (ProfileJson (Profile.set_experience (l1 ++ l2) p)),
       Store.save_profile uid (Profile.set_experience (l1 ++ l2) p) st).
Proof.
  intros Hid Hp Hl He Hl1. unfold removeExperience, findOne.
  load_document Hid Hp. unfold Arr.indexOf. rewrite Hl, map_app. cbn [map].
  rewrite findIndex_first;
    [|by apply absent_key_sym|by apply String.eqb_eq].
  rewrite length_map.
  destruct (Z.leb_spec 0 (Z.of_nat (length l1))); [|lia].
  by rewrite splice1_middle.
Qed.

Lemma removeEducation_run st uid entry_id p l1 e l2 :
  valid_id uid = true -> Store.profiles st !! uid = Some p ->
  Profile.education p = l1 ++ e :: l2 -> Education.id e = entry_id ->
  entry_id ∉ map Education.id l1 ->
  removeEducation valid_id st uid entry_id
    = (json 200 (ProfileJson (Profile.set_education (l1 ++ l2) p)),
       Store.save_profile uid (Profile.set_education (l1 ++ l2) p) st).
Proof.
  intros Hid Hp Hl He Hl1. unfold removeEducation, findOne.
  load_document Hid Hp. unfold Arr.indexOf. rewrite Hl, map_app. cbn [map].
  rewrite findIndex_first;
    [|by apply absent_key_sym|by apply String.eqb_eq].
  rewrite length_map.
  destruct (Z.leb_spec 0 (Z.of_nat (length l1))); [|lia].
  by rewrite splice1_middle.
Qed.

(** X18: The remove routes take out the first entry with the id and keep the
    other entries in their order: the profile stored for the user
    afterwards, which is also the answer, has the entries before and after
    the removed one and is otherwise as it was; no other profile changes. *)
Theorem remove_entry_first st uid entry_id p :
  valid_id uid = true -> Store.profiles st !! uid = Some p ->
  (forall l1 e l2,
     Profile.experience p = l1 ++ e :: l2 -> Experience.id e = entry_id ->
     entry_id ∉ map Experience.id l1 ->
     exists p' st',
       removeExperience valid_id st uid entry_id
         = (json 200 (ProfileJson p'), st')
       /\ Store.profiles st' !! uid = Some p'
       /\ Profile.experience p' = l1 ++ l2
       /\ Profile.education p' = Profile.education p
       /\ Profile.user p' = Profile.user p
       /\ (forall k, Key.stored k p' = Key.stored k p)
       /\ Profile.skills p' = Profile.skills p
       /\ Profile.social p' = Profile.social p
       /\ (forall other,
             other <> uid ->
             Store.profiles st' !! other = Store.profiles st !! other)
       /\ Store.users st' = Store.users st
       /\ Store.posts st' = Store.posts st)
  /\ (forall l1 e l2,
     Profile.education p = l1 ++ e :: l2 -> Education.id e = entry_id ->
     entry_id ∉ map Education.id l1 ->
     exists p' st',
       removeEducation valid_id st uid entry_id
         = (json 200 (ProfileJson p'), st')
       /\ Store.profiles st' !! uid = Some p'
       /\ Profile.education p' = l1 ++ l2
       /\ Profile.experience p' = Profile.experience p
       /\ Profile.user p' = Profile.user p
       /\ (forall k, Key.stored k p' = Key.stored k p)
       /\ Profile.skills p' = Profile.skills p
       /\ Profile.social p' = Profile.social p
       /\ (forall other,
             other <> uid ->
             Store.profiles st' !! other = Store.profiles st !! other)
       /\ Store.users st' = Store.users st
       /\ Store.posts st' = Store.posts st).
Proof.
  intros Hid Hp.
  split; intros l1 e l2 Hl He Hl1; eexists _, _;
    (split;
     [by eapply removeExperience_run || by eapply removeEducation_run|]);
    (split; [apply lookup_save_profile|]);
    repeat (split; [first [done | by intros k; destruct k
                          | intros other Hother; by apply lookup_insert_ne]|]);
    done.
Qed.


(** X20: A profile route that does not answer 200 has written nothing. *)
Theorem profile_routes_write_only_on_200 st uid req exp edu newId entry_id :
  (forall r st',
     upsertProfile valid_id st uid req = Return (r, st') ->
     status r <> 200 -> st' = st)
  /\ (status (fst (addExperience valid_id st uid exp newId)) <> 200 ->
     snd (addExperience valid_id st uid exp newId) = st)
  /\ (status (fst (removeExperience valid_id st uid entry_id)) <> 200 ->
     snd (removeExperience valid_id st uid entry_id) = st)
  /\ (status (fst (addEducation valid_id st uid edu newId)) <> 200 ->
     snd (addEducation valid_id st uid edu newId) = st)
  /\ (status (fst (removeEducation valid_id st uid entry_id)) <> 200 ->
     snd (removeEducation valid_id st uid entry_id) = st)
  /\ (status (fst (deleteProfileAndUser valid_id st uid)) <> 200 ->
     snd (deleteProfileAndUser valid_id st uid) = st).
Proof.
  repeat split.
  - intros r st'. rewrite upsertProfile_unfold. cbv zeta.
    unfold findOne, findById. handler_paths; intros; simplify_eq; done.
  - unfold addExperience, findOne, findById. handler_paths; congruence.
  - unfold removeExperience, findOne, findById. handler_paths; congruence.
  - unfold addEducation, findOne, findById. handler_paths; congruence.
  - unfold removeEducation, findOne, findById. handler_paths; congruence.
  - unfold deleteProfileAndUser, findOneAndRemove. handler_paths; congruence.
Qed.

End Entries.

Lemma chars_append a b :
  String.list_ascii_of_string (a ++ b)%string
    = String.list_ascii_of_string a ++ String.list_ascii_of_string b.
Proof.
  induction a as [|c a IH]; [done|].
  rewrite append_cons. simpl. by rewrite IH.
Qed.

Lemma trim_chars s c :
  c ∈ String.list_ascii_of_string (Str.trim s) ->
  c ∈ String.list_ascii_of_string s.
Proof.
  destruct (trim_spec s) as ((a & b & Hs) & _).
  intros Hc. rewrite Hs, !chars_append.
  apply elem_of_app. right. apply elem_of_app. by left.
Qed.

Section Accounts.

Variable valid_id : string -> bool.

(** X21: The skills [POST api/profile] stores for a string [s]: one more
    than [s] has commas, none with a comma in it and none that starts or
    ends with a white space character. *)
Theorem stored_skills st uid req s p st' :
  ProfileReq.skills req = Js.Str s ->
  upsertProfile valid_id st uid req
    = Return (json 200 (ProfileJson p), st') ->
  exists l,
    Store.profiles st' !! uid = Some p
    /\ Profile.skills p = Some l
    /\ length l
       = S (length (List.filter (fun c => Ascii.eqb c ","%char)
                      (String.list_ascii_of_string s)))
    /\ (forall w,
          w ∈ l ->
          (","%char ∉ String.list_ascii_of_string w)
          /\ (forall x r, x ∈ Str.white_space -> w <> (x ++ r)%string)
          /\ (forall x r, x ∈ Str.white_space -> w <> (r ++ x)%string)).
Proof.
  intros Hs. rewrite upsertProfile_unfold. cbv zeta.
  unfold validationResult, build_profileFields, skills_field.
  rewrite Hs. cbn [List.filter fst snd map Validator.isEmpty Js.truthy].
  destruct (String.eqb s EmptyString) eqn:Hempty.
  { destruct (Validator.isEmpty (ProfileReq.status req));
      cbn [map snd]; rewrite bool_decide_eq_false_2 by done; done. }
  destruct (negb (bool_decide _)); [done|].
  cbn [negb mbind throwing_bind mret throwing_ret].
  intros Hrun. exists (map Str.trim (Str.split ","%char s)).
  split; [|split; [|split]].
  - destruct (findOne valid_id (Store.profiles st) uid) as [?|[q|]];
      simplify_eq; apply lookup_save_profile.
  - destruct (findOne valid_id (Store.profiles st) uid) as [?|[q|]];
      by simplify_eq.
  - by rewrite length_map, split_length.
  - intros w (v & -> & Hv)%list_elem_of_fmap.
    destruct (trim_spec v) as (_ & Hhead & Hlast).
    split; [|by split].
    intros Hcomma%trim_chars. by eapply split_no_sep.
Qed.

(** X22: [DELETE api/profile] removes the requester's profile and user document
    and nothing else: the posts, the requester's too, and the other users
    and profiles stay.  A second request gives the same answer and the same
    store.  With a requester id that is no id the answer is the plain 500
    response and nothing is removed. *)
Theorem deleteProfileAndUser_effect st uid :
  (valid_id uid = true ->
     exists st',
       deleteProfileAndUser valid_id st uid
         = (json 200 (Msg "User deleted"), st')
       /\ Store.profiles st' !! uid = None
       /\ Store.users st' !! uid = None
       /\ Store.posts st' = Store.posts st
       /\ (forall other,
             other <> uid ->
             Store.profiles st' !! other = Store.profiles st !! other
             /\ Store.users st' !! other = Store.users st !! other)
       /\ deleteProfileAndUser valid_id st' uid
          = (json 200 (Msg "User deleted"), st'))
  /\ (valid_id uid = false ->
      deleteProfileAndUser valid_id st uid = (server_error, st)).
Proof.
  unfold deleteProfileAndUser, findOneAndRemove. split; intros Hid;
    rewrite Hid; [|done].
  cbn [mbind throwing_bind mret throwing_ret].
  eexists. split; [reflexivity|]. cbn [Store.profiles Store.users Store.posts].
  split; [apply lookup_delete_eq|]. split; [apply lookup_delete_eq|].
  split; [done|]. split.
  - intros other Hother. by rewrite !lookup_delete_ne.
  - by rewrite !delete_delete_eq.
Qed.

(** X23: After [DELETE api/profile] the requester has no profile and no user
    document for the routes that read them, and every post is read as
    before. *)
Theorem deleted_account_reads st uid :
  valid_id uid = true ->
  getMe valid_id (snd (deleteProfileAndUser valid_id st uid)) uid
    = Fails (json 400 (Msg "There is no profile for this user"))
  /\ getProfileByUserId valid_id
       (snd (deleteProfileAndUser valid_id st uid)) uid
     = Fails (json 400 (Errors ["User does not have public profile"]))
  /\ getAuth valid_id (snd (deleteProfileAndUser valid_id st uid)) uid
     = Fails (json 400 (Errors ["User was deleted"]))
  /\ (forall id,
        getPost valid_id (snd (deleteProfileAndUser valid_id st uid)) id
          = getPost valid_id st id)
  /\ listPublicPosts (snd (deleteProfileAndUser valid_id st uid))
     = listPublicPosts st.
Proof.
  intros Hid. unfold deleteProfileAndUser, findOneAndRemove. rewrite Hid.
  cbn [mbind throwing_bind mret throwing_ret snd].
  unfold getMe, getProfileByUserId, getAuth, findOne, findById.
  rewrite Hid. cbn [Store.profiles Store.users].
  by rewrite !lookup_delete_eq.
Qed.

(** X24: [GET api/profile/user/:user_id] answers 400 "User does not exist" for a
    string that is no id, 400 "User does not have public profile" for an id
    without a profile, whether or not a user has the id, and else the
    profile with its user's document. *)
Theorem getProfileByUserId_cases st user_id :
  (valid_id user_id = false ->
     getProfileByUserId valid_id st user_id
       = Fails (json 400 (Errors ["User does not exist"])))
  /\ (valid_id user_id = true -> Store.profiles st !! user_id = None ->
     getProfileByUserId valid_id st user_id
       = Fails (json 400 (Errors ["User does not have public profile"])))
  /\ (forall p,
        valid_id user_id = true -> Store.profiles st !! user_id = Some p ->
        getProfileByUserId valid_id st user_id
          = Json (p, Store.users st !! Profile.user p)).
Proof.
  unfold getProfileByUserId, findOne, findById.
  repeat split; intros; simplify_eq; by repeat match goal with
                                        | H : _ = _ |- _ => rewrite H
                                        end.
Qed.

(** X25: [GET api/profile] lists the stored profiles, one entry for each, every
    one with the document of its user; what [GET api/profile/me] and
    [GET api/profile/user/:user_id] answer with is among them. *)
Theorem getProfiles_lists_stored st :
  exists l,
    getProfiles st = Json l
    /\ length l = size (Store.profiles st)
    /\ (forall x,
          x ∈ l <->
          exists uid p,
            Store.profiles st !! uid = Some p
            /\ x = (p, Store.users st !! Profile.user p))
    /\ (forall uid x,
          getMe valid_id st uid = Json x
          \/ getProfileByUserId valid_id st uid = Json x ->
          x ∈ l).
Proof.
  assert (forall x,
    x ∈ map (fun d => populate (Store.users st) (snd d))
          (map_to_list (Store.profiles st)) <->
    exists uid p,
      Store.profiles st !! uid = Some p
      /\ x = (p, Store.users st !! Profile.user p)) as Hmem.
  { intros x. rewrite list_elem_of_fmap. split.
    - intros ([uid p] & -> & Hin%elem_of_map_to_list). by exists uid, p.
    - intros (uid & p & Hp & ->). exists (uid, p).
      split; [done|]. by apply elem_of_map_to_list. }
  eexists. split; [reflexivity|]. split; [|split; [exact Hmem|]].
  - by rewrite length_map, length_map_to_list.
  - intros uid x Hread. apply Hmem.
    destruct Hread as [Hread|Hread]; revert Hread;
      unfold getMe, getProfileByUserId, findOne, findById;
      handler_paths; intros; simplify_eq; by eexists _, _.
Qed.

End Accounts.

(** ** The other routes on the sample store *)

Lemma getPost_only_public_witness :
  Sample.objectid Sample.hello_id = true
  /\ Store.posts Sample.store !! Sample.hello_id = Some Sample.hello
  /\ Post.ispublic Sample.hello = true.
Proof.
  apply (getPost_only_public Sample.objectid Sample.store Sample.hello_id
           Sample.hello).
  vm_compute; reflexivity.
Defined.

Lemma listPublicPosts_public_newest_first_witness :
  exists l,
    listPublicPosts Sample.store = Json l
    /\ (Sample.hello_id, Sample.hello) ∈ l.
Proof.
  destruct (listPublicPosts_public_newest_first Sample.store)
    as (l & Hl & Hmem & _).
  exists l. split; [exact Hl|]. apply Hmem.
  split; vm_compute; reflexivity.
Defined.

Lemma post_routes_write_only_on_200_witness :
  snd (likePost Sample.objectid Sample.store Sample.hello_id Sample.bob)
    = Sample.store
  /\ snd (deleteComment Sample.objectid Sample.store Sample.hello_id
            (Comment.id Sample.comment2) Sample.bob)
     = Sample.store.
Proof.
  destruct (post_routes_write_only_on_200 Sample.objectid Sample.store
              Sample.hello_id Sample.bob Fixture.private_note
              Fixture.post_id 0 (Js.Str "hi") (Comment.id Sample.comment2))
    as (_ & _ & Hlike & _ & _ & Hdelete).
  split; [apply Hlike|apply Hdelete]; by_evaluation.
Defined.


Lemma post_routes_keep_likes_unique_witness :
  unique_likes
    (snd (likePost Sample.objectid Sample.store Sample.hello_id Sample.carol))
  /\ unique_likes
       (snd (unlikePost Sample.objectid Sample.store Sample.hello_id
               Sample.bob)).
Proof.
  destruct (post_routes_keep_likes_unique Sample.objectid Sample.store
              Sample.hello_id Sample.carol Fixture.private_note
              Fixture.post_id 0 (Js.Str "hi") Fixture.comment_id)
    as (_ & _ & Hlike & _); [by_evaluation|].
  destruct (post_routes_keep_likes_unique Sample.objectid Sample.store
              Sample.hello_id Sample.bob Fixture.private_note
              Fixture.post_id 0 (Js.Str "hi") Fixture.comment_id)
    as (_ & _ & _ & Hunlike & _); [by_evaluation|].
  by split.
Defined.

Lemma repeated_like_unlike_rejected_witness :
  likePost Sample.objectid
      (snd (likePost Sample.objectid Sample.store Sample.hello_id
              Sample.carol))
      Sample.hello_id Sample.carol
    = (json 400 (Msg "Post already liked"),
       snd (likePost Sample.objectid Sample.store Sample.hello_id
              Sample.carol))
  /\ unlikePost Sample.objectid
       (snd (unlikePost Sample.objectid Sample.store Sample.hello_id
               Sample.bob))
       Sample.hello_id Sample.bob
     = (json 400 (Msg "Post was never liked"),
        snd (unlikePost Sample.objectid Sample.store Sample.hello_id
               Sample.bob)).
Proof.
  destruct (repeated_like_unlike_rejected Sample.objectid Sample.store
              Sample.hello_id Sample.carol Sample.hello)
    as [Hlike _]; [vm_compute; reflexivity ..|].
  destruct (repeated_like_unlike_rejected Sample.objectid Sample.store
              Sample.hello_id Sample.bob Sample.hello)
    as [_ Hunlike]; [vm_compute; reflexivity ..|].
  split; [exact Hlike|apply Hunlike; by_evaluation].
Defined.

Lemma private_post_refused_witness :
  likePost Sample.objectid Sample.store Sample.secret_id Sample.bob
    = (json 404 (Errors [ERR_NOTFOUND]), Sample.store)
  /\ addComment Sample.objectid Sample.store Sample.secret_id Sample.bob
       (Js.Str "hi") Fixture.comment_id
     = (json 404 (Errors [ERR_NOTFOUND]), Sample.store).
Proof.
  destruct (private_post_refused Sample.objectid Sample.store
              Sample.secret_id Sample.bob (Js.Str "hi") Fixture.comment_id
              Sample.secret)
    as (Hlike & _ & Hcomment); [vm_compute; reflexivity ..|].
  split; [exact Hlike|apply Hcomment; reflexivity].
Defined.

Lemma addComment_cases_witness :
  exists c,
    addComment Sample.objectid Sample.store Sample.hello_id Sample.carol
        (Js.Str "nice") Fixture.comment_id
      = (json 200 (CommentsJson (c :: Post.comments Sample.hello)),
         Store.save_post Sample.hello_id
           (Post.set_comments (c :: Post.comments Sample.hello) Sample.hello)
           Sample.store)
    /\ Comment.name c = "Carol".
Proof.
  destruct (addComment_cases Sample.objectid Sample.store Sample.hello_id
              Sample.carol (Js.Str "nice") Fixture.comment_id Sample.hello)
    as [_ Hadd]; [vm_compute; reflexivity ..|].
  eexists. split.
  - apply (Hadd {| User.name := "Carol"; User.avatar := "c.png" |}).
    vm_compute; reflexivity.
  - reflexivity.
Defined.

Lemma addComment_then_deleteComment_witness :
  deleteComment Sample.objectid
      (snd (addComment Sample.objectid Sample.store Sample.hello_id
              Sample.carol (Js.Str "nice") Fixture.comment_id))
      Sample.hello_id Fixture.comment_id Sample.carol
    = (json 200 (Msg "Comment deleted"), Sample.store).
Proof.
  apply (addComment_then_deleteComment Sample.objectid Sample.store
           Sample.hello_id Sample.carol (Js.Str "nice") Fixture.comment_id
           Sample.hello {| User.name := "Carol"; User.avatar := "c.png" |});
    vm_compute; reflexivity.
Defined.


Lemma createPost_then_read_witness :
  exists p,
    createPost Sample.objectid Sample.store Sample.bob Fixture.private_note
        Fixture.post_id 1568297600
      = (json 200 (PostJson p),
         Store.save_post Fixture.post_id p Sample.store)
    /\ getPost Sample.objectid
         (Store.save_post Fixture.post_id p Sample.store) Fixture.post_id
       = json 404 (Errors [ERR_NOTFOUND]).
Proof.
  destruct (createPost_then_read Sample.objectid Sample.store Sample.bob
              {| User.name := "Bob"; User.avatar := "b.png" |}
              Fixture.private_note Fixture.post_id 1568297600)
    as (p & l & Hrun & _ & Hprivate & _); [vm_compute; reflexivity ..|].
  exists p. split; [exact Hrun|]. by apply Hprivate.
Defined.

Lemma deletePost_twice_witness :
  exists st',
    snd (deletePost Sample.objectid Sample.store Sample.hello_id Sample.alice)
      = st'
    /\ deletePost Sample.objectid st' Sample.hello_id Sample.bob
       = (json 404 (Errors ["Post not found"]), st').
Proof.
  destruct (deletePost_twice Sample.objectid Sample.store Sample.hello_id
              Sample.alice Sample.bob)
    as (st' & l & Hst' & _ & Hagain & _); [vm_compute; reflexivity|].
  exists st'. by split.
Defined.

Lemma upsertProfile_creates_witness :
  exists p,
    upsertProfile Sample.objectid Sample.store Sample.bob Sample.company_only
      = Return (json 200 (ProfileJson p),
                Store.save_profile Sample.bob p Sample.store)
    /\ Store.profiles (Store.save_profile Sample.bob p Sample.store)
         !! Sample.bob = Some p
    /\ Key.stored Key.company p = Some (Js.Str "Initech")
    /\ Key.stored Key.location p = None
    /\ Profile.skills p = Some ["js"; "rust"]
    /\ Profile.experience p = [].
Proof.
  destruct (upsertProfile_creates Sample.objectid Sample.store Sample.bob
              Sample.company_only)
    as (p & Hrun & Hstored & _ & Htop & Hskills & _ & _ & Hexp & _);
    [vm_compute; reflexivity ..|].
  exists p. split; [exact Hrun|]. split; [exact Hstored|].
  rewrite !Htop, (Hskills "js, rust" eq_refl). by repeat split.
Defined.


Lemma upsertProfile_then_getMe_witness :
  exists p st',
    upsertProfile Sample.objectid Sample.store Sample.alice
        Sample.company_only
      = Return (json 200 (ProfileJson p), st')
    /\ getMe Sample.objectid st' Sample.alice
       = Json (p, Some {| User.name := "Alice"; User.avatar := "a.png" |}).
Proof.
  eexists _, _. split; [vm_compute; reflexivity|].
  eapply (upsertProfile_then_getMe Sample.objectid Sample.store Sample.alice
            Sample.company_only).
  vm_compute; reflexivity.
Defined.

Lemma addEducation_cases_witness :
  addEducation Sample.objectid Sample.store Sample.bob Fixture.new_school
      Fixture.entry_id
    = (server_error, Sample.store)
  /\ exists e p' st',
      addEducation Sample.objectid Fixture.store Sample.carol
          Fixture.new_school Fixture.entry_id
        = (json 200 (ProfileJson p'), st')
      /\ Store.profiles st' !! Sample.carol = Some p'
      /\ Profile.education p'
         = [e; Fixture.school_a; Fixture.school_b; Fixture.school_c]
      /\ Education.id e = Fixture.entry_id
      /\ Education.school e = Js.Str "ETH"
      /\ Profile.experience p'
         = [Fixture.job_a; Fixture.job_b; Fixture.job_c]
      /\ Store.profiles st' !! Sample.alice = Some Sample.alice_profile.
Proof.
  destruct (addEducation_cases Sample.objectid Sample.store Sample.bob
              Fixture.new_school Fixture.entry_id)
    as [Hnone _]; [vm_compute; reflexivity ..|].
  destruct (addEducation_cases Sample.objectid Fixture.store Sample.carol
              Fixture.new_school Fixture.entry_id)
    as [_ Hsome]; [vm_compute; reflexivity ..|].
  destruct (Hsome Fixture.carol_profile)
    as (e & p' & st' & Hrun & Hstored & Hedu & Hexp & _ & _ & _ & _
        & Hothers & _ & _ & Hid & Hschool & _);
    [vm_compute; reflexivity|].
  split.
  - apply Hnone. vm_compute; reflexivity.
  - exists e, p', st'. split; [exact Hrun|]. split; [exact Hstored|].
    split; [exact Hedu|]. split; [exact Hid|]. split; [exact Hschool|].
    split; [exact Hexp|].
    rewrite (Hothers Sample.alice) by by_evaluation.
    vm_compute; reflexivity.
Defined.

Lemma add_then_remove_entry_witness :
  removeExperience Sample.objectid
      (snd (addExperience Sample.objectid Sample.store Sample.alice
              Sample.new_job Fixture.entry_id))
      Sample.alice Fixture.entry_id
    = (json 200 (ProfileJson Sample.alice_profile), Sample.store)
  /\ removeEducation Sample.objectid
       (snd (addEducation Sample.objectid Sample.store Sample.alice
               Fixture.new_school Fixture.entry_id))
       Sample.alice Fixture.entry_id
     = (json 200 (ProfileJson Sample.alice_profile), Sample.store).
Proof.
  destruct (add_then_remove_entry Sample.objectid Sample.store Sample.alice
              Sample.alice_profile Fixture.entry_id Sample.new_job
              Fixture.new_school)
    as [Hexp Hedu]; [vm_compute; reflexivity ..|].
  split; [apply Hexp|apply Hedu]; vm_compute; reflexivity.
Defined.

Lemma remove_entry_first_witness :
  (exists p' st',
     removeExperience Sample.objectid Fixture.store Sample.carol
         (Experience.id Fixture.job_b)
       = (json 200 (ProfileJson p'), st')
     /\ Store.profiles st' !! Sample.carol = Some p'
     /\ Profile.experience p' = [Fixture.job_a; Fixture.job_c]
     /\ Profile.education p'
        = [Fixture.school_a; Fixture.school_b; Fixture.school_c])
  /\ (exists p' st',
     removeEducation Sample.objectid Fixture.store Sample.carol
         (Education.id Fixture.school_c)
       = (json 200 (ProfileJson p'), st')
     /\ Store.profiles st' !! Sample.carol = Some p'
     /\ Profile.education p' = [Fixture.school_a; Fixture.school_b]
     /\ Profile.experience p'
        = [Fixture.job_a; Fixture.job_b; Fixture.job_c]).
Proof.
  destruct (remove_entry_first Sample.objectid Fixture.store Sample.carol
              (Experience.id Fixture.job_b) Fixture.carol_profile)
    as [Hexp _]; [vm_compute; reflexivity ..|].
  destruct (remove_entry_first Sample.objectid Fixture.store Sample.carol
              (Education.id Fixture.school_c) Fixture.carol_profile)
    as [_ Hedu]; [vm_compute; reflexivity ..|].
  destruct (Hexp [Fixture.job_a] Fixture.job_b [Fixture.job_c])
    as (p1 & st1 & Hrun1 & Hstored1 & Hexp1 & Hedu1 & _);
    [reflexivity | reflexivity | by_evaluation |].
  destruct (Hedu [Fixture.school_a; Fixture.school_b] Fixture.school_c [])
    as (p2 & st2 & Hrun2 & Hstored2 & Hedu2 & Hexp2 & _);
    [reflexivity | reflexivity | by_evaluation |].
  split; [exists p1, st1|exists p2, st2]; by repeat split.
Defined.


Lemma profile_routes_write_only_on_200_witness :
  snd (addExperience Sample.objectid Sample.store Sample.bob Sample.new_job
         Fixture.entry_id)
    = Sample.store
  /\ snd (deleteProfileAndUser Sample.objectid Sample.store "me")
     = Sample.store.
Proof.
  destruct (profile_routes_write_only_on_200 Sample.objectid Sample.store
              Sample.bob Sample.required_only Sample.new_job
              Fixture.new_school Fixture.entry_id Fixture.entry_id)
    as (_ & Hadd & _).
  destruct (profile_routes_write_only_on_200 Sample.objectid Sample.store
              "me" Sample.required_only Sample.new_job
              Fixture.new_school Fixture.entry_id Fixture.entry_id)
    as (_ & _ & _ & _ & _ & Hdelete).
  split; [apply Hadd|apply Hdelete]; by_evaluation.
Defined.

Lemma stored_skills_witness :
  exists p st',
    upsertProfile Sample.objectid Sample.store Sample.alice
        Fixture.spaced_skills
      = Return (json 200 (ProfileJson p), st')
    /\ Store.profiles st' !! Sample.alice = Some p
    /\ Profile.skills p = Some ["js"; "c sharp"; "rust"].
Proof.
  assert (exists p st',
            upsertProfile Sample.objectid Sample.store Sample.alice
                Fixture.spaced_skills
              = Return (json 200 (ProfileJson p), st')) as (p & st' & Hrun).
  { eexists _, _. vm_compute; reflexivity. }
  destruct (stored_skills Sample.objectid Sample.store Sample.alice
              Fixture.spaced_skills _ p st' eq_refl Hrun)
    as (l & Hstored & Hl & _).
  exists p, st'. split; [exact Hrun|]. split; [exact Hstored|].
  rewrite Hl. f_equal. injection Hrun as <- _.
  vm_compute in Hl. by injection Hl as <-.
Defined.

Lemma deleteProfileAndUser_effect_witness :
  exists st',
    deleteProfileAndUser Sample.objectid Sample.store Sample.alice
      = (json 200 (Msg "User deleted"), st')
    /\ Store.profiles st' !! Sample.alice = None
    /\ Store.users st' !! Sample.alice = None
    /\ Store.posts st' !! Sample.hello_id = Some Sample.hello.
Proof.
  destruct (deleteProfileAndUser_effect Sample.objectid Sample.store
              Sample.alice) as [Hvalid _].
  destruct Hvalid as (st' & Hrun & Hprofile & Huser & Hposts & _);
    [vm_compute; reflexivity|].
  exists st'. rewrite Hposts. by repeat split.
Defined.

Lemma deleted_account_reads_witness :
  getAuth Sample.objectid
      (snd (deleteProfileAndUser Sample.objectid Sample.store Sample.alice))
      Sample.alice
    = Fails (json 400 (Errors ["User was deleted"]))
  /\ getPost Sample.objectid
       (snd (deleteProfileAndUser Sample.objectid Sample.store Sample.alice))
       Sample.hello_id
     = json 200 (PostJson Sample.hello).
Proof.
  destruct (deleted_account_reads Sample.objectid Sample.store Sample.alice)
    as (_ & _ & Hauth & Hposts & _); [vm_compute; reflexivity|].
  split; [exact Hauth|]. rewrite Hposts. vm_compute; reflexivity.
Defined.

Lemma getProfileByUserId_cases_witness :
  getProfileByUserId Sample.objectid Sample.store "me"
    = Fails (json 400 (Errors ["User does not exist"]))
  /\ getProfileByUserId Sample.objectid Sample.store Sample.bob
     = Fails (json 400 (Errors ["User does not have public profile"]))
  /\ getProfileByUserId Sample.objectid Sample.store Sample.alice
     = Json (Sample.alice_profile,
             Some {| User.name := "Alice"; User.avatar := "a.png" |}).
Proof.
  destruct (getProfileByUserId_cases Sample.objectid Sample.store "me")
    as (Hbad & _).
  destruct (getProfileByUserId_cases Sample.objectid Sample.store Sample.bob)
    as (_ & Hnone & _).
  destruct (getProfileByUserId_cases Sample.objectid Sample.store
              Sample.alice) as (_ & _ & Hsome).
  split; [|split].
  - apply Hbad. vm_compute; reflexivity.
  - apply Hnone; vm_compute; reflexivity.
  - rewrite (Hsome Sample.alice_profile); vm_compute; reflexivity.
Defined.

Lemma getProfiles_lists_stored_witness :
  exists l,
    getProfiles Sample.store = Json l
    /\ length l = 1%nat
    /\ (Sample.alice_profile,
        Some {| User.name := "Alice"; User.avatar := "a.png" |}) ∈ l.
Proof.
  destruct (getProfiles_lists_stored Sample.objectid Sample.store)
    as (l & Hl & Hlen & _ & Hread).
  exists l. split; [exact Hl|]. split; [by rewrite Hlen|].
  apply (Hread Sample.alice). left. vm_compute; reflexivity.
Defined.
